(** * MarkTeX: output-path resolution, repository location and build pipeline

    A shallow embedding of [src/marktex/cli.py].

    - [PurePath] models the part of [pathlib.PurePosixPath] the program uses:
      a path is an anchor flag (rooted at [/] or not) and its list of
      components.  Path values are normalised by [pathlib] when they are
      built, so the components never hold an empty string, a lone dot or a
      slash; the implementation-defined double-slash root is not represented.
      [suffix] and [with_suffix] follow Python 3.9 to 3.13.
    - The resolver ([get_relative_path_from_root], [get_mirror_paths]) is pure
      once [Path.resolve] is given; [resolve] is a parameter standing for the
      symbolic links and the working directory of the machine, and is taken
      to be total.
    - The file system is a map from paths to what they hold; [exists],
      [is_file] and [is_dir] read it and do not fail.  The repository
      locator is given a second time with its error exits
      ([find_repo_root_probing]: the resolution of the start and every
      existence test may raise), and the two agree when nothing fails.
    - The pipeline is written in a state-and-exception monad over a [World]
      (the file system and the trace of calls made so far).  External tools
      and the [shutil] primitives are fields of an [OS] record: the theorems
      hold whatever they do.  Calls to [print] are left out, and so is the
      parsing of the command line: [main] starts from the parsed arguments. *)

From Stdlib Require Import List String Ascii Bool Arith ZArith Lia.
From Equations Require Import Equations.
Import ListNotations.
Open Scope string_scope.

(** ** Exceptions and outcomes *)

Inductive exn : Type :=
| ValueError
| NotImplementedError
| CalledProcessError
| OSError
| UnboundLocalError.

Inductive Outcome (A : Type) : Type :=
| Returned (a : A)
| Raised (e : exn).
Arguments Returned {A} a.
Arguments Raised {A} e.

(** ** Paths *)

Module PurePath.

Record Path : Type := mkPath {
  anchored : bool;          (* [True] when the path starts at the root [/] *)
  segments : list string    (* the components after the root *)
}.

Definition path_eq_dec (p q : Path) : {p = q} + {p <> q}.
Proof.
  decide equality.
  - apply (list_eq_dec string_dec).
  - apply bool_dec.
Defined.

Definition path_eqb (p q : Path) : bool :=
  if path_eq_dec p q then true else false.

(** [str.split(sep)] *)
Fixpoint split_on (sep : ascii) (s : string) : list string :=
  match s with
  | EmptyString => [EmptyString]
  | String c r =>
      if Ascii.eqb c sep then EmptyString :: split_on sep r
      else match split_on sep r with
           | h :: t => String c h :: t
           | [] => [String c EmptyString]
           end
  end.

Definition starts_with_slash (s : string) : bool :=
  match s with
  | String c _ => Ascii.eqb c "/"
  | EmptyString => false
  end.

(** [Path(s)]: empty components and lone dots are dropped *)
Definition Path_of (s : string) : Path :=
  mkPath (starts_with_slash s)
         (filter (fun x => negb (String.eqb x "" || String.eqb x "."))
                 (split_on "/" s)).

(** [str(p)] *)
Definition path_str (p : Path) : string :=
  if anchored p then "/" ++ String.concat "/" (segments p)
  else match segments p with
       | [] => "."
       | _ => String.concat "/" (segments p)
       end.

(** [p.parts] *)
Definition parts (p : Path) : list string :=
  if anchored p then "/" :: segments p else segments p.

(** [p / q] *)
Definition joinpath (p q : Path) : Path :=
  if anchored q then q
  else mkPath (anchored p) (segments p ++ segments q).

(** [p / "literal"] *)
Definition joinstr (p : Path) (s : string) : Path := joinpath p (Path_of s).

(** [p.parent]: the root and the empty relative path are their own parent *)
Definition parent (p : Path) : Path :=
  mkPath (anchored p) (removelast (segments p)).

(** [p.name] *)
Definition name (p : Path) : string := last (segments p) "".

(** [str.rfind(".")], [None] for Python's [-1] *)
Fixpoint rfind_dot (s : string) : option nat :=
  match s with
  | EmptyString => None
  | String c r =>
      match rfind_dot r with
      | Some i => Some (S i)
      | None => if Ascii.eqb c "." then Some 0 else None
      end
  end.

(** [p.suffix], on the name *)
Definition suffix_of (nm : string) : string :=
  match rfind_dot nm with
  | Some i =>
      if (Nat.ltb 0 i && Nat.ltb i (String.length nm - 1))%bool
      then substring i (String.length nm - i) nm
      else ""
  | None => ""
  end.

Definition suffix (p : Path) : string := suffix_of (name p).

(** the new name [with_suffix] computes *)
Definition replace_suffix (nm sfx : string) : string :=
  let old_suffix := suffix_of nm in
  if String.eqb old_suffix "" then nm ++ sfx
  else substring 0 (String.length nm - String.length old_suffix) nm ++ sfx.

Fixpoint has_slash (s : string) : bool :=
  match s with
  | EmptyString => false
  | String c r => Ascii.eqb c "/" || has_slash r
  end.

Fixpoint has_dot (s : string) : bool :=
  match s with
  | EmptyString => false
  | String c r => Ascii.eqb c "." || has_dot r
  end.

Definition starts_with_dot (s : string) : bool :=
  match s with
  | String c _ => Ascii.eqb c "."
  | EmptyString => false
  end.

(** [p.with_suffix(sfx)] *)
Definition with_suffix (p : Path) (sfx : string) : Outcome Path :=
  if has_slash sfx then Raised ValueError
  else if (negb (String.eqb sfx "") && negb (starts_with_dot sfx))
          || String.eqb sfx "."
  then Raised ValueError
  else if String.eqb (name p) "" then Raised ValueError
  else Returned (mkPath (anchored p)
                        (removelast (segments p)
                         ++ [replace_suffix (name p) sfx])).

Fixpoint strip_prefix (pre l : list string) : option (list string) :=
  match pre, l with
  | [], _ => Some l
  | a :: pre', b :: l' => if String.eqb a b then strip_prefix pre' l' else None
  | _ :: _, [] => None
  end.

(** [p.relative_to(other)] *)
Definition relative_to (p other : Path) : Outcome Path :=
  if Bool.eqb (anchored p) (anchored other) then
    match strip_prefix (segments other) (segments p) with
    | Some rest => Returned (mkPath false rest)
    | None => Raised ValueError
    end
  else Raised ValueError.

(** [p.is_absolute()] *)
Definition is_absolute (p : Path) : bool := anchored p.

(** [Path.resolve] on a machine without symbolic links: the path is made
    absolute from the working directory and [..] is folded away. *)
Fixpoint fold_dotdot (acc : list string) (segs : list string) : list string :=
  match segs with
  | [] => rev acc
  | s :: r =>
      if String.eqb s ".." then fold_dotdot (tl acc) r
      else fold_dotdot (s :: acc) r
  end.

Definition lexical_resolve (cwd p : Path) : Path :=
  mkPath true (fold_dotdot [] (segments (joinpath cwd p))).

End PurePath.
Export PurePath.

Notation "p // s" := (joinstr p s) (at level 40, left associativity).

(** ** Path resolver *)

Record MirrorPaths : Type := mkMirrorPaths {
  pdf : Path;
  tex : Path;
  recent : option Path
}.

Definition is_special_folder (s : string) : bool :=
  String.eqb s "PDF" || String.eqb s "TEX" || String.eqb s "recent".

(** lines 101-103: drop a leading PDF, TEX or recent *)
Definition strip_special (parts : list string) : list string :=
  match parts with
  | p0 :: rest => if is_special_folder p0 then rest else parts
  | [] => parts
  end.

Section Resolver.

Variable resolve : Path -> Path.

(** lines 87-108 *)
Definition get_relative_path_from_root (file_path repo_root : Path) : Path :=
  match relative_to (resolve file_path) (resolve repo_root) with
  | Returned rel_path =>
      let parts := strip_special (parts rel_path) in
      match parts with
      | [] => Path_of "."
      | _ => mkPath false parts
      end
  | Raised _ => file_path      (* [relative_to] raises ValueError only *)
  end.

(** lines 111-141; an exception of [with_suffix] leaves the function *)
Definition get_mirror_paths (source_file : Path) (repo_root : option Path)
  : Outcome MirrorPaths :=
  match repo_root with
  | None =>
      match with_suffix source_file ".pdf" with
      | Raised e => Raised e
      | Returned pdf_path =>
          match with_suffix source_file ".tex" with
          | Raised e => Raised e
          | Returned tex_path => Returned (mkMirrorPaths pdf_path tex_path None)
          end
      end
  | Some repo_root =>
      let rel_path := get_relative_path_from_root source_file repo_root in
      match with_suffix rel_path ".pdf" with
      | Raised e => Raised e
      | Returned rel_pdf =>
          let pdf_path := joinpath (repo_root // "PDF") rel_pdf in
          match with_suffix rel_path ".tex" with
          | Raised e => Raised e
          | Returned rel_tex =>
              let tex_path := joinpath (repo_root // "TEX") rel_tex in
              let recent_dir := repo_root // "recent" in
              Returned (mkMirrorPaths pdf_path tex_path (Some recent_dir))
          end
      end
  end.

End Resolver.

(** ** File system and repository locator *)

Inductive Kind : Type := File | Dir.

(** what the file system holds at each path ([None]: nothing) *)
Definition FS : Type := Path -> option Kind.

Definition path_exists (f : FS) (p : Path) : bool :=
  match f p with Some _ => true | None => false end.

Definition path_is_file (f : FS) (p : Path) : bool :=
  match f p with Some File => true | _ => false end.

Definition path_is_dir (f : FS) (p : Path) : bool :=
  match f p with Some Dir => true | _ => false end.

(** line 80 *)
Definition has_marker (f : FS) (current : Path) : bool :=
  path_exists f (current // "PDF") || path_exists f (current // "TEX")
  || path_exists f (current // ".git").

(** lines 78-84: the loop of [find_repo_root] *)
Equations find_repo_root_loop (f : FS) (current : Path) : option Path
  by wf (List.length (segments current)) lt :=
find_repo_root_loop f current with path_eq_dec current (parent current) := {
  | left _ => None
  | right Hne =>
      if has_marker f current then Some current
      else find_repo_root_loop f (parent current) }.
Next Obligation.
  destruct current as [a segs]; unfold parent in *; simpl in *.
  destruct segs as [|s segs]; [now elim Hne|].
  rewrite removelast_firstn_len, length_firstn; simpl; lia.
Qed.

(** lines 66-84 *)
Definition find_repo_root (resolve : Path -> Path) (f : FS) (start_path : Path)
  : option Path :=
  find_repo_root_loop f (resolve start_path).

(** *** The locator with its error exits

    [Path.exists] answers [False] only for a missing entry and re-raises
    every other error of the operating system, such as a denied permission
    (PermissionError, an OSError); [Path.resolve] can raise as well.
    [find_repo_root] handles none of them.  Here a probe gives its answer or
    raises, and so does the resolution of the start. *)

Definition Probe : Type := Path -> Outcome bool.

(** line 80: [a.exists() or b.exists() or c.exists()], left to right, a
    later probe being made only when the earlier ones answered [False] *)
Definition has_marker_probing (probe : Probe) (current : Path) : Outcome bool :=
  match probe (current // "PDF") with
  | Raised e => Raised e
  | Returned true => Returned true
  | Returned false =>
      match probe (current // "TEX") with
      | Raised e => Raised e
      | Returned true => Returned true
      | Returned false => probe (current // ".git")
      end
  end.

(** lines 78-84 *)
Equations find_repo_root_loop_probing (probe : Probe) (current : Path)
  : Outcome (option Path)
  by wf (List.length (segments current)) lt :=
find_repo_root_loop_probing probe current
  with path_eq_dec current (parent current) := {
  | left _ => Returned None
  | right Hne =>
      match has_marker_probing probe current with
      | Raised e => Raised e
      | Returned true => Returned (Some current)
      | Returned false => find_repo_root_loop_probing probe (parent current)
      end }.
Next Obligation.
  destruct current as [a segs]; unfold parent in *; simpl in *.
  destruct segs as [|s segs]; [now elim Hne|].
  rewrite removelast_firstn_len, length_firstn; simpl; lia.
Qed.

(** lines 66-84 *)
Definition find_repo_root_probing (resolve : Path -> Outcome Path)
  (probe : Probe) (start_path : Path) : Outcome (option Path) :=
  match resolve start_path with
  | Raised e => Raised e
  | Returned current => find_repo_root_loop_probing probe current
  end.

(** ** The world the pipeline runs in *)

Inductive Event : Type :=
| Call_convert_md_to_tex (input_md output_tex : Path)
| Call_convert_md_to_pdf_direct (input_md output_pdf : Path)
| Call_compile_tex_to_pdf (tex_file output_pdf : Path)
| Call_copy_to_recent (source_file recent_dir : Path) (file_type : string)
| Subprocess_run (argv : list string) (cwd : option Path)
| Mkdir (p : Path)
| Shutil_copy (src dst : Path)
| Shutil_copytree (src dst : Path)
| Shutil_move (src dst : Path)
| TemporaryDirectory_enter (d : Path)
| TemporaryDirectory_cleanup (d : Path).

Record World : Type := mkWorld {
  fs : FS;
  trace : list Event      (* oldest first *)
}.

(** What the program does not decide: symbolic links, the working directory,
    what the external programs and the [shutil] calls do to the file system
    and whether they fail.  [os_run] gives the return code of the child, or
    raises when the child cannot be started. *)
Record OS : Type := mkOS {
  os_resolve : Path -> Path;
  os_cwd : Path;
  os_run : list string -> option Path -> FS -> Outcome Z * FS;
  os_mkdir : Path -> FS -> Outcome unit * FS;
  os_copy : Path -> Path -> FS -> Outcome unit * FS;
  os_copytree : Path -> Path -> FS -> Outcome unit * FS;
  os_move : Path -> Path -> FS -> Outcome unit * FS;
  os_mkdtemp : FS -> Outcome Path
}.

(** ** State and exception monad *)

Definition M (A : Type) : Type := World -> Outcome A * World.

Definition ret {A} (a : A) : M A := fun w => (Returned a, w).

Definition raise {A} (e : exn) : M A := fun w => (Raised e, w).

Definition bind {A B} (m : M A) (k : A -> M B) : M B :=
  fun w =>
    match m w with
    | (Returned a, w') => k a w'
    | (Raised e, w') => (Raised e, w')
    end.

Notation "x <- m ;; k" := (bind m (fun x => k))
  (at level 61, m at next level, right associativity).
Notation "m ;; k" := (bind m (fun _ => k))
  (at level 61, right associativity).

Definition exn_eqb (a b : exn) : bool :=
  match a, b with
  | ValueError, ValueError
  | NotImplementedError, NotImplementedError
  | CalledProcessError, CalledProcessError
  | OSError, OSError
  | UnboundLocalError, UnboundLocalError => true
  | _, _ => false
  end.

(** [try: body except e: handler] *)
Definition try_except {A} (body : M A) (e : exn) (handler : M A) : M A :=
  fun w =>
    match body w with
    | (Raised e', w') => if exn_eqb e e' then handler w' else (Raised e', w')
    | r => r
    end.

Definition log (e : Event) : M unit :=
  fun w => (Returned tt, mkWorld (fs w) (trace w ++ [e])).

Definition lift_outcome {A} (o : Outcome A) : M A := fun w => (o, w).

Definition lift_fs {A} (op : FS -> Outcome A * FS) : M A :=
  fun w => let (r, f') := op (fs w) in (r, mkWorld f' (trace w)).

Definition read_fs {A} (q : FS -> A) : M A := fun w => (Returned (q (fs w)), w).

Definition is_relative_to (p d : Path) : bool :=
  match relative_to p d with Returned _ => true | Raised _ => false end.

(** removal of a directory and everything below it *)
Definition rmtree (d : Path) (f : FS) : FS :=
  fun p => if is_relative_to p d then None else f p.

Definition add_dir (d : Path) (f : FS) : FS :=
  fun p => if path_eqb p d then Some Dir else f p.

Section Pipeline.

Variable os : OS.

(** [p.mkdir(parents=True, exist_ok=True)] *)
Definition mkdir_parents (p : Path) : M unit :=
  log (Mkdir p) ;; lift_fs (os_mkdir os p).

Definition shutil_copy (src dst : Path) : M unit :=
  log (Shutil_copy src dst) ;; lift_fs (os_copy os src dst).

Definition shutil_copytree (src dst : Path) : M unit :=
  log (Shutil_copytree src dst) ;; lift_fs (os_copytree os src dst).

Definition shutil_move (src dst : Path) : M unit :=
  log (Shutil_move src dst) ;; lift_fs (os_move os src dst).

(** [subprocess.run(argv, cwd=cwd, check=check)], giving the return code *)
Definition subprocess_run (argv : list string) (cwd : option Path)
  (check : bool) : M Z :=
  log (Subprocess_run argv cwd) ;;
  rc <- lift_fs (os_run os argv cwd) ;;
  if check && negb (Z.eqb rc 0) then raise CalledProcessError else ret rc.

(** [with tempfile.TemporaryDirectory() as tmpdir: body]: the directory is
    removed when the block is left, by a return or by an exception *)
Definition with_TemporaryDirectory {A} (body : Path -> M A) : M A :=
  fun w =>
    match os_mkdtemp os (fs w) with
    | Raised e => (Raised e, w)
    | Returned tmpdir =>
        let w1 := mkWorld (add_dir tmpdir (fs w))
                          (trace w ++ [TemporaryDirectory_enter tmpdir]) in
        let (r, w2) := body tmpdir w1 in
        (r, mkWorld (rmtree tmpdir (fs w2))
                    (trace w2 ++ [TemporaryDirectory_cleanup tmpdir]))
    end.

(** lines 12-36 *)
Definition check_dependencies : M (bool * list string) :=
  let missing : list string := [] in
  rc <- subprocess_run ["which"; "pandoc"] None false ;;
  let missing := if negb (Z.eqb rc 0) then (missing ++ ["pandoc"])%list else missing in
  rc <- subprocess_run ["which"; "pandoc-mermaid"] None false ;;
  let missing :=
    if negb (Z.eqb rc 0)
    then (missing ++ ["pandoc-mermaid (install via: uv tool install --from pandoc-mermaid-filter pandoc-mermaid-filter)"])%list
    else missing in
  rc <- subprocess_run ["which"; "latexmk"] None false ;;
  let missing :=
    if negb (Z.eqb rc 0)
    then (missing ++ ["latexmk (install via: sudo apt-get install texlive-full)"])%list
    else missing in
  rc <- subprocess_run ["which"; "mmdc"] None false ;;
  let missing :=
    if negb (Z.eqb rc 0)
    then (missing ++ ["mmdc (install via: npm install -g @mermaid-js/mermaid-cli)"])%list
    else missing in
  ret (Nat.eqb (List.length missing) 0, missing).

Inductive SourceType : Type := markdown | latex.

(** lines 39-63 *)
Definition determine_source_type (file_path : Path) : Outcome SourceType :=
  if String.eqb (suffix file_path) ".md" then Returned markdown
  else if String.eqb (suffix file_path) ".tex" then Raised NotImplementedError
  else Raised ValueError.

(** lines 144-179 *)
Definition convert_md_to_tex (input_md output_tex : Path) : M bool :=
  log (Call_convert_md_to_tex input_md output_tex) ;;
  mkdir_parents (parent output_tex) ;;
  try_except
    (subprocess_run
       ["pandoc"; path_str input_md; "--from=markdown"; "--to=latex";
        "--standalone"; "--filter"; "pandoc-mermaid"; "-o";
        path_str output_tex]
       None true ;;
     ret true)
    CalledProcessError
    (ret false).

(** lines 182-215 *)
Definition convert_md_to_pdf_direct (input_md output_pdf : Path) : M bool :=
  log (Call_convert_md_to_pdf_direct input_md output_pdf) ;;
  mkdir_parents (parent output_pdf) ;;
  try_except
    (subprocess_run
       ["pandoc"; path_str input_md; "--from=markdown"; "--filter";
        "pandoc-mermaid"; "-o"; path_str output_pdf]
       None true ;;
     ret true)
    CalledProcessError
    (ret false).

(** lines 236-274: the body of the [with] block *)
Definition compile_in_tmpdir (tex_file output_pdf tmpdir_path : Path)
  : M bool :=
  let temp_tex := tmpdir_path // name tex_file in
  shutil_copy tex_file temp_tex ;;
  let mermaid_src := os_cwd os // "mermaid-images" in
  has_images <- read_fs (fun f => path_exists f mermaid_src) ;;
  (if has_images : bool
   then shutil_copytree mermaid_src (tmpdir_path // "mermaid-images")
   else ret tt) ;;
  try_except
    (subprocess_run
       ["latexmk"; "-xelatex"; "-interaction=nonstopmode";
        "-output-directory=" ++ path_str tmpdir_path; name temp_tex]
       (Some tmpdir_path) true ;;
     renamed <- lift_outcome (with_suffix temp_tex ".pdf") ;;
     let temp_pdf := tmpdir_path // name renamed in
     shutil_move temp_pdf output_pdf ;;
     ret true)
    CalledProcessError
    (ret false).

(** lines 218-274 *)
Definition compile_tex_to_pdf (tex_file output_pdf : Path) : M bool :=
  log (Call_compile_tex_to_pdf tex_file output_pdf) ;;
  mkdir_parents (parent output_pdf) ;;
  with_TemporaryDirectory (compile_in_tmpdir tex_file output_pdf).

(** lines 277-292 *)
Definition copy_to_recent (source_file recent_dir : Path) (file_type : string)
  : M unit :=
  log (Call_copy_to_recent source_file recent_dir file_type) ;;
  present <- read_fs (fun f => path_exists f source_file) ;;
  if negb present then ret tt
  else
    mkdir_parents recent_dir ;;
    let dest_file := recent_dir // name source_file in
    shutil_copy source_file dest_file.

Inductive Mode : Type := both | pdf_only | tex_only.

(** [if paths['recent']: copy_to_recent(...)] *)
Definition copy_if_recent (file : Path) (recent_dir : option Path)
  (file_type : string) : M unit :=
  match recent_dir with
  | Some d => copy_to_recent file d file_type
  | None => ret tt
  end.

(** lines 316-344: the stages of each mode, once the paths are known *)
Definition run_stages (source_file : Path) (mode : Mode) (paths : MirrorPaths)
  : M bool :=
  match mode with
  | pdf_only =>
      ok <- convert_md_to_pdf_direct source_file (pdf paths) ;;
      if negb ok then ret false
      else
        copy_if_recent (pdf paths) (recent paths) "pdf" ;;
        ret true
  | tex_only =>
      ok <- convert_md_to_tex source_file (tex paths) ;;
      if negb ok then ret false
      else
        copy_if_recent (tex paths) (recent paths) "tex" ;;
        ret true
  | both =>
      ok <- convert_md_to_tex source_file (tex paths) ;;
      if negb ok then ret false
      else
        ok <- compile_tex_to_pdf (tex paths) (pdf paths) ;;
        if negb ok then ret false
        else
          match recent paths with
          | Some d =>
              copy_to_recent (tex paths) d "tex" ;;
              copy_to_recent (pdf paths) d "pdf"
          | None => ret tt
          end ;;
          ret true
  end.

(** lines 295-344 *)
Definition build_markdown_outputs (source_file : Path) (mode : Mode)
  (repo_root : option Path) : M bool :=
  paths <- lift_outcome (get_mirror_paths (os_resolve os) source_file repo_root) ;;
  run_stages source_file mode paths.

(** the parsed command line *)
Record Args : Type := mkArgs {
  arg_input : option Path;
  arg_pdf_only : bool;
  arg_tex_only : bool;
  arg_repo_root : option Path;
  arg_check_deps : bool
}.

(** lines 416-491, from the parsed arguments on; the result is the value
    [main] returns, which [sys.exit] turns into the exit code *)
Definition main (args : Args) : M Z :=
  if arg_check_deps args then
    r <- check_dependencies ;;
    if fst r then ret 0%Z else ret 1%Z
  else
    match arg_input args with
    | None => ret 1%Z
    | Some input =>
        let input_file := os_resolve os input in
        present <- read_fs (fun f => path_exists f input_file) ;;
        if negb present then ret 1%Z
        else
          regular <- read_fs (fun f => path_is_file f input_file) ;;
          if negb regular then ret 1%Z
          else
            r <- check_dependencies ;;
            if negb (fst r) then ret 1%Z
            else if arg_pdf_only args && arg_tex_only args then ret 1%Z
            else
              let mode := if arg_pdf_only args then pdf_only
                          else if arg_tex_only args then tex_only
                          else both in
              match determine_source_type input_file with
              | Raised _ => ret 1%Z
              | Returned source_type =>
                  let build repo_root :=
                    success <- match source_type with
                               | markdown =>
                                   build_markdown_outputs input_file mode repo_root
                               | latex => raise UnboundLocalError
                               end ;;
                    if success : bool then ret 0%Z else ret 1%Z in
                  match arg_repo_root args with
                  | Some rr =>
                      let repo_root := os_resolve os rr in
                      is_d <- read_fs (fun f => path_is_dir f repo_root) ;;
                      if negb is_d then ret 1%Z
                      else build (Some repo_root)
                  | None =>
                      repo_root <- read_fs (fun f =>
                        find_repo_root (os_resolve os) f (parent input_file)) ;;
                      build repo_root
                  end
              end
    end.

(** the exit code of the process: an exception that leaves [main] ends the
    interpreter with code 1 *)
Definition exit_code (o : Outcome Z) : Z :=
  match o with
  | Returned n => n
  | Raised _ => 1%Z
  end.

End Pipeline.

(** * Vocabulary of the properties *)

(** ** Resolver and locator *)

Definition inside_output_folder (rel : list string) : bool :=
  match rel with
  | p0 :: _ => is_special_folder p0
  | [] => false
  end.

(** the [k]-th ancestor: [p], [p.parent], [p.parent.parent], ... *)
Fixpoint nth_parent (k : nat) (p : Path) : Path :=
  match k with
  | 0 => p
  | S k' => nth_parent k' (parent p)
  end.

(** The locator, as the claim words it: the nearest directory with a marker
    among the start and all its ancestors is returned. *)
Definition returns_nearest_marked_ancestor (resolve : Path -> Path) (f : FS)
  (start_path : Path) : Prop :=
  forall k,
    has_marker f (nth_parent k (resolve start_path)) = true ->
    (forall j, j < k ->
       has_marker f (nth_parent j (resolve start_path)) = false) ->
    find_repo_root resolve f start_path
    = Some (nth_parent k (resolve start_path)).

(** ** Events and traces *)

Definition is_call_compile (e : Event) : bool :=
  match e with Call_compile_tex_to_pdf _ _ => true | _ => false end.

Definition is_call_copy (e : Event) : bool :=
  match e with Call_copy_to_recent _ _ _ => true | _ => false end.

Definition is_tmpdir_enter (e : Event) : bool :=
  match e with TemporaryDirectory_enter _ => true | _ => false end.

Definition is_subprocess (e : Event) : bool :=
  match e with Subprocess_run _ _ => true | _ => false end.

(** a child process running [prog] *)
Definition runs_program (prog : string) (e : Event) : bool :=
  match e with
  | Subprocess_run (p :: _) _ => String.eqb p prog
  | _ => false
  end.

(** the events added between two worlds *)
Definition events_since (w w' : World) : list Event :=
  skipn (List.length (trace w)) (trace w').

(** every event [m] adds to the trace satisfies [P] *)
Definition emits {A} (P : Event -> Prop) (m : M A) : Prop :=
  forall w, exists evs,
    trace (snd (m w)) = (trace w ++ evs)%list /\ Forall P evs.

(** the events each stage can add *)
Definition tex_stage_event (e : Event) : bool :=
  match e with
  | Call_convert_md_to_tex _ _ | Mkdir _ => true
  | Subprocess_run (p :: _) None => String.eqb p "pandoc"
  | _ => false
  end.

Definition pdf_direct_stage_event (e : Event) : bool :=
  match e with
  | Call_convert_md_to_pdf_direct _ _ | Mkdir _ => true
  | Subprocess_run (p :: _) None => String.eqb p "pandoc"
  | _ => false
  end.

Definition compile_stage_event (e : Event) : bool :=
  match e with
  | Call_compile_tex_to_pdf _ _ | Mkdir _ | Shutil_copy _ _
  | Shutil_copytree _ _ | Shutil_move _ _
  | TemporaryDirectory_enter _ | TemporaryDirectory_cleanup _ => true
  | Subprocess_run (p :: _) (Some _) => String.eqb p "latexmk"
  | _ => false
  end.

Definition compile_body_event (e : Event) : bool :=
  compile_stage_event e && negb (is_tmpdir_enter e).

Definition which_probe_event (e : Event) : bool :=
  match e with
  | Subprocess_run [p; _] None => String.eqb p "which"
  | _ => false
  end.

(** what a [pdf-only] build of [/tmp/x.md] may do *)
Definition pdf_only_tmp_x_events : list Event :=
  [Call_convert_md_to_pdf_direct (Path_of "/tmp/x.md") (Path_of "/tmp/x.pdf");
   Mkdir (Path_of "/tmp");
   Subprocess_run
     ["pandoc"; "/tmp/x.md"; "--from=markdown"; "--filter"; "pandoc-mermaid";
      "-o"; "/tmp/x.pdf"] None].

(** the claim on the two exclusive flags, as it is worded: exit code 1 and
    no child process at all *)
Definition exits_1_without_process (os : OS) (args : Args) (w : World) : Prop :=
  exit_code (fst (main os args w)) = 1%Z
  /\ Forall (fun e => is_subprocess e = false)
       (events_since w (snd (main os args w))).

(** ** A small machine for the concrete runs *)

Definition add_file (p : Path) (f : FS) : FS :=
  fun q => if path_eqb q p then Some File else f q.

Definition remove_path (p : Path) (f : FS) : FS :=
  fun q => if path_eqb q p then None else f q.

(** a machine whose only marker is [/.git] *)
Definition fs_git_at_root : FS :=
  fun p => if path_eqb p (Path_of "/.git") then Some Dir else None.

(** No symbolic links, working directory [/repo].  A tool returns the code
    [rc_of argv]; when that is 0, [pandoc] writes the file named last on its
    command line and [latexmk] writes the PDF and an auxiliary file in its
    working directory. *)
Definition demo_run (rc_of : list string -> Z) (argv : list string)
  (cwd : option Path) (f : FS) : Outcome Z * FS :=
  let rc := rc_of argv in
  (Returned rc,
   if negb (Z.eqb rc 0) then f
   else if String.eqb (hd "" argv) "pandoc"
   then add_file (Path_of (last argv "")) f
   else match cwd with
        | Some d =>
            add_file (d // replace_suffix (last argv "") ".pdf")
              (add_file (d // replace_suffix (last argv "") ".aux") f)
        | None => f
        end).

Definition demo_os (rc_of : list string -> Z) : OS :=
  {| os_resolve := lexical_resolve (Path_of "/repo");
     os_cwd := Path_of "/repo";
     os_run := demo_run rc_of;
     os_mkdir := fun p f => (Returned tt, add_dir p f);
     os_copy := fun src dst f =>
       match f src with
       | Some _ => (Returned tt, add_file dst f)
       | None => (Raised OSError, f)
       end;
     os_copytree := fun src dst f => (Returned tt, add_dir dst f);
     os_move := fun src dst f =>
       match f src with
       | Some _ => (Returned tt, add_file dst (remove_path src f))
       | None => (Raised OSError, f)
       end;
     os_mkdtemp := fun _ => Returned (Path_of "/tmp/tmpq3x7") |}.

Definition all_succeed (argv : list string) : Z := 0%Z.

Definition fails (prog : string) (argv : list string) : Z :=
  if String.eqb (hd "" argv) prog then 1%Z else 0%Z.

(** [/repo] with a [.git] marker and the source [/repo/notes/plan.md] *)
Definition demo_world : World :=
  mkWorld (add_file (Path_of "/repo/notes/plan.md")
             (add_dir (Path_of "/repo/notes")
                (add_dir (Path_of "/repo/.git")
                   (add_dir (Path_of "/repo") (fun _ => None)))))
          [].

(** the demo world once the LaTeX stage has written its output *)
Definition demo_world_tex : World :=
  mkWorld (add_file (Path_of "/repo/TEX/notes/plan.tex") (fs demo_world)) [].

Definition demo_paths : MirrorPaths :=
  {| pdf := Path_of "/repo/PDF/notes/plan.pdf";
     tex := Path_of "/repo/TEX/notes/plan.tex";
     recent := Some (Path_of "/repo/recent") |}.

Definition both_flags (check : bool) : Args :=
  {| arg_input := Some (Path_of "notes/plan.md");
     arg_pdf_only := true; arg_tex_only := true;
     arg_repo_root := None; arg_check_deps := check |}.

(** ** Vocabulary of the further properties *)

Definition is_call_tex (e : Event) : bool :=
  match e with Call_convert_md_to_tex _ _ => true | _ => false end.

Definition is_call_pdf_direct (e : Event) : bool :=
  match e with Call_convert_md_to_pdf_direct _ _ => true | _ => false end.

Definition is_move (e : Event) : bool :=
  match e with Shutil_move _ _ => true | _ => false end.

(** the events of [copy_to_recent] *)
Definition copy_step_event (e : Event) : bool :=
  match e with
  | Call_copy_to_recent _ _ _ | Mkdir _ | Shutil_copy _ _ => true
  | _ => false
  end.

(** a call of one of the three converter stages or of the copy step *)
Definition is_stage_call (e : Event) : bool :=
  is_call_tex e || is_call_pdf_direct e || is_call_compile e || is_call_copy e.

(** what the body of the [with] block may do in the directory [d] when the
    final PDF is [output_pdf]: copies, moves that all go to [output_pdf], and
    child processes that are all [latexmk] started in [d] with [d] as output
    directory; no stage call, no directory creation and no further temporary
    directory *)
Definition in_tmpdir_event (d output_pdf : Path) (e : Event) : Prop :=
  match e with
  | Shutil_move _ dst => dst = output_pdf
  | Subprocess_run argv cwd =>
      cwd = Some d /\ hd "" argv = "latexmk"
      /\ In ("-output-directory=" ++ path_str d) argv
  | Shutil_copy _ _ | Shutil_copytree _ _ => True
  | TemporaryDirectory_enter _ | TemporaryDirectory_cleanup _
  | Call_compile_tex_to_pdf _ _ | Call_convert_md_to_tex _ _
  | Call_convert_md_to_pdf_direct _ _ | Call_copy_to_recent _ _ _
  | Mkdir _ => False
  end.

(** [shutil.move] fails with an error of the operating system, never with
    the error of a child process *)
Definition move_errors_are_os_errors (os : OS) : Prop :=
  forall src dst f e,
    fst (os_move os src dst f) = Raised e -> e <> CalledProcessError.

(** the four probes of the dependency check, in the order of the code *)
Definition which_probes : list Event :=
  [Subprocess_run ["which"; "pandoc"] None;
   Subprocess_run ["which"; "pandoc-mermaid"] None;
   Subprocess_run ["which"; "latexmk"] None;
   Subprocess_run ["which"; "mmdc"] None].

(** lines 456-462: the mode the flags select *)
Definition selected_mode (args : Args) : Mode :=
  if arg_pdf_only args then pdf_only
  else if arg_tex_only args then tex_only
  else both.

(** lines 471-478: the root [main] builds with, on the file system [f] *)
Definition selected_root (os : OS) (args : Args) (f : FS) (input_file : Path)
  : option Path :=
  match arg_repo_root args with
  | Some rr => Some (os_resolve os rr)
  | None => find_repo_root (os_resolve os) f (parent input_file)
  end.

(** every test [main] makes before it builds has passed *)
Definition checks_pass (os : OS) (args : Args) (w : World) (input : Path)
  : Prop :=
  arg_check_deps args = false
  /\ arg_input args = Some input
  /\ path_is_file (fs w) (os_resolve os input) = true
  /\ fst (check_dependencies os w) = Returned (true, [])
  /\ (arg_pdf_only args && arg_tex_only args = false)%bool
  /\ determine_source_type (os_resolve os input) = Returned markdown
  /\ (forall rr, arg_repo_root args = Some rr ->
        path_is_dir (fs (snd (check_dependencies os w))) (os_resolve os rr)
        = true).

(** [marktex notes/plan.md], no flag *)
Definition plain_args : Args :=
  {| arg_input := Some (Path_of "notes/plan.md");
     arg_pdf_only := false; arg_tex_only := false;
     arg_repo_root := None; arg_check_deps := false |}.

(** a machine where [/srv] cannot be read: every probe below it is refused *)
Definition probe_srv_denied : Probe :=
  fun p => if is_relative_to p (Path_of "/srv") then Raised OSError
           else Returned false.

(** a probe that never fails, answering from the file system [f] *)
Definition probe_of (f : FS) : Probe := fun p => Returned (path_exists f p).

(** what the existence tests in a directory [d] say, in the order the
    locator makes them ([PDF], [TEX], [.git], stopping at the first that
    answers yes or fails): one of the three entries is there *)
Definition marker_found (probe : Probe) (d : Path) : Prop :=
  probe (d // "PDF") = Returned true
  \/ (probe (d // "PDF") = Returned false
      /\ probe (d // "TEX") = Returned true)
  \/ (probe (d // "PDF") = Returned false
      /\ probe (d // "TEX") = Returned false
      /\ probe (d // ".git") = Returned true).

(** none of the three entries is there *)
Definition no_marker (probe : Probe) (d : Path) : Prop :=
  probe (d // "PDF") = Returned false
  /\ probe (d // "TEX") = Returned false
  /\ probe (d // ".git") = Returned false.

(** one of the three tests failed with [e], those before it having answered
    no *)
Definition probe_raised (probe : Probe) (d : Path) (e : exn) : Prop :=
  probe (d // "PDF") = Raised e
  \/ (probe (d // "PDF") = Returned false
      /\ probe (d // "TEX") = Raised e)
  \/ (probe (d // "PDF") = Returned false
      /\ probe (d // "TEX") = Returned false
      /\ probe (d // ".git") = Raised e).

(** [/tmp] with the source [/tmp/x.md], outside every repository *)
Definition tmp_world : World :=
  mkWorld (add_file (Path_of "/tmp/x.md") (fun _ => None)) [].

(** the command line of the direct converter for [/tmp/x.md] *)
Definition pandoc_tmp_x : list string :=
  ["pandoc"; "/tmp/x.md"; "--from=markdown"; "--filter"; "pandoc-mermaid";
   "-o"; "/tmp/x.pdf"].

(** * Properties *)

(** ** Strings and paths *)

Example Path_of_abs :
  Path_of "/repo/notes/plan.md" = mkPath true ["repo"; "notes"; "plan.md"].
Proof. reflexivity. Qed.

Example Path_of_rel :
  Path_of "notes/./plan.md" = mkPath false ["notes"; "plan.md"].
Proof. reflexivity. Qed.

Example replace_suffix_hidden : replace_suffix ".md" ".tex" = ".md.tex".
Proof. reflexivity. Qed.

Example replace_suffix_two : replace_suffix "a.tar.gz" ".pdf" = "a.tar.pdf".
Proof. reflexivity. Qed.

Example replace_suffix_none : replace_suffix "README" ".pdf" = "README.pdf".
Proof. reflexivity. Qed.

Lemma rfind_dot_no_dot (s : string) : has_dot s = false -> rfind_dot s = None.
Proof.
  induction s as [|c r IH]; simpl; [reflexivity|].
  intros H; apply orb_false_iff in H as [Hc Hr].
  now rewrite (IH Hr), Hc.
Qed.

Lemma rfind_dot_app (stem ext : string) :
  has_dot ext = false ->
  rfind_dot (stem ++ String "." ext) = Some (String.length stem).
Proof.
  intros Hext; induction stem as [|c r IH]; simpl.
  - now rewrite (rfind_dot_no_dot _ Hext).
  - now rewrite IH.
Qed.

Lemma length_append (s t : string) :
  String.length (s ++ t) = String.length s + String.length t.
Proof. induction s; simpl; congruence. Qed.

Lemma substring_all (t : string) : substring 0 (String.length t) t = t.
Proof. induction t; simpl; congruence. Qed.

Lemma substring_app_right (s t : string) :
  substring (String.length s) (String.length t) (s ++ t) = t.
Proof. induction s; simpl; [apply substring_all | assumption]. Qed.

Lemma substring_app_left (s t : string) :
  substring 0 (String.length s) (s ++ t) = s.
Proof.
  induction s; simpl; [now destruct t | congruence].
Qed.

(** On a name [stem.ext], [with_suffix] swaps the extension. *)
Lemma replace_suffix_ext (stem ext sfx : string) :
  stem <> "" -> ext <> "" -> has_dot ext = false ->
  replace_suffix (stem ++ String "." ext) sfx = stem ++ sfx.
Proof.
  intros Hstem Hext Hdot.
  assert (Hsuf : suffix_of (stem ++ String "." ext) = String "." ext).
  { unfold suffix_of. rewrite (rfind_dot_app _ _ Hdot), length_append.
    assert (0 < String.length stem) by (destruct stem; simpl; [congruence|lia]).
    assert (0 < String.length ext) by (destruct ext; simpl; [congruence|lia]).
    simpl String.length.
    replace (Nat.ltb 0 (String.length stem)) with true
      by (symmetry; apply Nat.ltb_lt; lia).
    replace (Nat.ltb (String.length stem)
               (String.length stem + S (String.length ext) - 1)) with true
      by (symmetry; apply Nat.ltb_lt; lia).
    simpl andb. cbv iota.
    replace (String.length stem + S (String.length ext) - String.length stem)
      with (String.length (String "." ext)) by (simpl; lia).
    apply substring_app_right. }
  unfold replace_suffix. rewrite Hsuf. simpl String.eqb. cbv iota.
  rewrite length_append.
  replace (String.length stem + String.length (String "." ext)
           - String.length (String "." ext)) with (String.length stem) by lia.
  now rewrite substring_app_left.
Qed.

Lemma length_substring (s : string) :
  forall i n, i + n <= String.length s -> String.length (substring i n s) = n.
Proof.
  induction s as [|c r IH]; intros i n H; simpl in *.
  - destruct i, n; simpl; lia.
  - destruct i as [|i].
    + destruct n as [|n]; simpl; [reflexivity|]. rewrite IH; lia.
    + apply IH; lia.
Qed.

(** the part of the name [with_suffix] keeps *)
Lemma replace_suffix_stem (nm : string) :
  nm <> "" ->
  exists stem, stem <> "" /\ forall sfx, replace_suffix nm sfx = stem ++ sfx.
Proof.
  intros Hnm. unfold replace_suffix.
  destruct (String.eqb (suffix_of nm) "") eqn:E.
  - now exists nm.
  - exists (substring 0 (String.length nm - String.length (suffix_of nm)) nm).
    split; [|reflexivity].
    unfold suffix_of in *. destruct (rfind_dot nm) as [i|]; [|discriminate].
    destruct (Nat.ltb 0 i && Nat.ltb i (String.length nm - 1))%bool eqn:Hi;
      [|discriminate].
    apply andb_true_iff in Hi as [H0 H1].
    apply Nat.ltb_lt in H0, H1.
    rewrite (length_substring nm i (String.length nm - i)) by lia.
    intros Hempty.
    assert (Hlen : String.length
                     (substring 0 (String.length nm - (String.length nm - i)) nm)
                   = String.length nm - (String.length nm - i))
      by (apply length_substring; lia).
    rewrite Hempty in Hlen. simpl in Hlen. lia.
Qed.

(** Replacing the extension twice is replacing it once: the LaTeX and the
    PDF names come from the same stem. *)
Lemma replace_suffix_twice (nm ext sfx : string) :
  nm <> "" -> ext <> "" -> has_dot ext = false ->
  replace_suffix (replace_suffix nm (String "." ext)) sfx
  = replace_suffix nm sfx.
Proof.
  intros Hnm Hext Hdot.
  destruct (replace_suffix_stem nm Hnm) as (stem & Hstem & Hrep).
  rewrite !Hrep. now apply replace_suffix_ext.
Qed.

Lemma strip_prefix_app (pre l : list string) :
  strip_prefix pre (pre ++ l)%list = Some l.
Proof.
  induction pre as [|a pre IH]; simpl; [reflexivity|].
  now rewrite String.eqb_refl.
Qed.

Lemma strip_prefix_some (pre l rest : list string) :
  strip_prefix pre l = Some rest -> l = (pre ++ rest)%list.
Proof.
  revert l; induction pre as [|a pre IH]; intros l; simpl.
  - now intros [= ->].
  - destruct l as [|b l]; [discriminate|].
    destruct (String.eqb a b) eqn:E; [|discriminate].
    apply String.eqb_eq in E as ->. intros H. now rewrite (IH _ H).
Qed.

(** A path below [other] is relative to it. *)
Lemma relative_to_joinpath (other : Path) (rel : list string) :
  relative_to (joinpath other (mkPath false rel)) other
  = Returned (mkPath false rel).
Proof.
  unfold relative_to, joinpath; simpl.
  now rewrite Bool.eqb_reflx, strip_prefix_app.
Qed.

Lemma last_snoc (l : list string) (x d : string) : last (l ++ [x])%list d = x.
Proof. apply last_last. Qed.

Lemma with_suffix_named (a : bool) (dir : list string) (nm sfx : string) :
  nm <> "" -> has_slash sfx = false -> starts_with_dot sfx = true ->
  sfx <> "." ->
  with_suffix (mkPath a (dir ++ [nm])%list) sfx
  = Returned (mkPath a (dir ++ [replace_suffix nm sfx])).
Proof.
  intros Hnm Hsl Hdot Hne. unfold with_suffix, name; simpl.
  rewrite Hsl, Hdot, last_snoc, removelast_last.
  apply String.eqb_neq in Hnm, Hne. rewrite Hnm, Hne.
  now rewrite andb_false_r.
Qed.

Lemma with_suffix_pdf (a : bool) (dir : list string) (nm : string) :
  nm <> "" ->
  with_suffix (mkPath a (dir ++ [nm])%list) ".pdf"
  = Returned (mkPath a (dir ++ [replace_suffix nm ".pdf"])).
Proof. intros; now apply with_suffix_named. Qed.

Lemma with_suffix_tex (a : bool) (dir : list string) (nm : string) :
  nm <> "" ->
  with_suffix (mkPath a (dir ++ [nm])%list) ".tex"
  = Returned (mkPath a (dir ++ [replace_suffix nm ".tex"])).
Proof. intros; now apply with_suffix_named. Qed.

Lemma with_suffix_has_name (p : Path) (sfx : string) :
  name p <> "" -> has_slash sfx = false -> starts_with_dot sfx = true ->
  sfx <> "." ->
  with_suffix p sfx
  = Returned (mkPath (anchored p)
                (removelast (segments p) ++ [replace_suffix (name p) sfx])).
Proof.
  intros Hnm Hsl Hdot Hne. unfold with_suffix.
  apply String.eqb_neq in Hnm, Hne.
  now rewrite Hsl, Hdot, Hnm, Hne, andb_false_r.
Qed.

(** ** Path resolver *)

Lemma relative_path_under_root (resolve : Path -> Path)
  (file_path repo_root : Path) (rel : list string) :
  resolve file_path = joinpath (resolve repo_root) (mkPath false rel) ->
  get_relative_path_from_root resolve file_path repo_root
  = match strip_special rel with
    | [] => Path_of "."
    | _ => mkPath false (strip_special rel)
    end.
Proof.
  intros H. unfold get_relative_path_from_root.
  now rewrite H, relative_to_joinpath.
Qed.

(** repository mode on a source below the root, in the form of the code *)
Lemma mirror_paths_under_root (resolve : Path -> Path)
  (source_file repo_root : Path) (rel dir : list string) (nm : string) :
  resolve source_file = joinpath (resolve repo_root) (mkPath false rel) ->
  strip_special rel = (dir ++ [nm])%list ->
  nm <> "" ->
  get_mirror_paths resolve source_file (Some repo_root)
  = Returned
      {| pdf := joinpath (repo_root // "PDF")
                  (mkPath false (dir ++ [replace_suffix nm ".pdf"]));
         tex := joinpath (repo_root // "TEX")
                  (mkPath false (dir ++ [replace_suffix nm ".tex"]));
         recent := Some (repo_root // "recent") |}.
Proof.
  intros Hunder Hrel Hnm. unfold get_mirror_paths.
  rewrite (relative_path_under_root _ _ _ _ Hunder), Hrel.
  assert (Hshape : match (dir ++ [nm])%list with
                   | [] => Path_of "."
                   | _ :: _ => mkPath false (dir ++ [nm])
                   end = mkPath false (dir ++ [nm])) by now destruct dir.
  now rewrite Hshape, (with_suffix_pdf _ _ _ Hnm), (with_suffix_tex _ _ _ Hnm).
Qed.




(** A Markdown document below the root always has such a decomposition, so
    the resolver never fails on what [main] hands over. *)
Lemma markdown_under_root_splits (rel : list string) :
  rel <> [] ->
  suffix (mkPath false rel) = ".md" ->
  exists dir nm,
    strip_special rel = (dir ++ [nm])%list /\ nm <> "" /\ suffix_of nm = ".md".
Proof.
  intros Hne Hsuf. unfold suffix, name in Hsuf; simpl in Hsuf.
  destruct rel as [|p0 rest]; [now elim Hne|].
  unfold strip_special.
  assert (Hlast : forall l : list string, l <> [] ->
            suffix_of (last l "") = ".md" ->
            exists dir nm, l = (dir ++ [nm])%list /\ nm <> ""
                           /\ suffix_of nm = ".md").
  { intros l Hl Hs. exists (removelast l), (last l "").
    split; [now apply app_removelast_last|].
    split; [|assumption]. intros E; rewrite E in Hs; discriminate. }
  destruct (is_special_folder p0) eqn:Hsp.
  - destruct rest as [|p1 rest].
    + exfalso. simpl in Hsuf. unfold is_special_folder in Hsp.
      apply orb_true_iff in Hsp as [Hsp|Hsp];
        [apply orb_true_iff in Hsp as [Hsp|Hsp]|];
        apply String.eqb_eq in Hsp; subst p0; discriminate.
    + apply Hlast; [discriminate|exact Hsuf].
  - apply Hlast; [discriminate|exact Hsuf].
Qed.

(** Resolving the targets themselves gives the same targets again, as long
    as the output folders are plain directories of the root. *)
Lemma resolving_outputs_again (resolve : Path -> Path)
  (source_file repo_root : Path) (rel dir : list string) (nm : string)
  (paths : MirrorPaths) :
  resolve source_file = joinpath (resolve repo_root) (mkPath false rel) ->
  strip_special rel = (dir ++ [nm])%list ->
  nm <> "" ->
  get_mirror_paths resolve source_file (Some repo_root) = Returned paths ->
  resolve (tex paths)
  = joinpath (resolve repo_root)
      (mkPath false ("TEX" :: dir ++ [replace_suffix nm ".tex"])) ->
  resolve (pdf paths)
  = joinpath (resolve repo_root)
      (mkPath false ("PDF" :: dir ++ [replace_suffix nm ".pdf"])) ->
  get_mirror_paths resolve (tex paths) (Some repo_root) = Returned paths
  /\ get_mirror_paths resolve (pdf paths) (Some repo_root) = Returned paths.
Proof.
  intros Hunder Hrel Hnm Hpaths Htex Hpdf.
  rewrite (mirror_paths_under_root _ _ _ _ _ _ Hunder Hrel Hnm) in Hpaths.
  destruct (replace_suffix_stem nm Hnm) as (stem & Hstem & Hrep).
  assert (Hnonempty : forall sfx, sfx <> "" -> replace_suffix nm sfx <> "").
  { intros sfx Hs E. rewrite Hrep in E. destruct stem; [now elim Hstem|].
    discriminate. }
  split.
  - rewrite (mirror_paths_under_root resolve (tex paths) repo_root
               ("TEX" :: dir ++ [replace_suffix nm ".tex"]) dir
               (replace_suffix nm ".tex") Htex eq_refl)
      by (apply Hnonempty; discriminate).
    rewrite <- Hpaths.
    now rewrite !(replace_suffix_twice nm "tex") by (assumption || reflexivity || discriminate).
  - rewrite (mirror_paths_under_root resolve (pdf paths) repo_root
               ("PDF" :: dir ++ [replace_suffix nm ".pdf"]) dir
               (replace_suffix nm ".pdf") Hpdf eq_refl)
      by (apply Hnonempty; discriminate).
    rewrite <- Hpaths.
    now rewrite !(replace_suffix_twice nm "pdf") by (assumption || reflexivity || discriminate).
Qed.

(** C2.  A path whose first segment below the root is PDF, TEX or recent
    loses that segment; a path inside an output folder therefore resolves to
    the same output paths as the same relative path [rel] placed directly
    below the root, outside the output folders. *)
Theorem resolution_strips_output_folder (resolve : Path -> Path)
  (inside outside repo_root : Path) (special : string) (rel : list string) :
  is_special_folder special = true ->
  resolve inside = joinpath (resolve repo_root) (mkPath false (special :: rel)) ->
  get_relative_path_from_root resolve inside repo_root
  = match rel with [] => Path_of "." | _ => mkPath false rel end
  /\ (resolve outside = joinpath (resolve repo_root) (mkPath false rel) ->
      inside_output_folder rel = false ->
      get_relative_path_from_root resolve inside repo_root
      = get_relative_path_from_root resolve outside repo_root
      /\ get_mirror_paths resolve inside (Some repo_root)
         = get_mirror_paths resolve outside (Some repo_root)).
Proof.
  intros Hsp Hin.
  assert (Hstrip : get_relative_path_from_root resolve inside repo_root
                   = match rel with [] => Path_of "." | _ => mkPath false rel end).
  { rewrite (relative_path_under_root _ _ _ _ Hin). simpl. now rewrite Hsp. }
  split; [exact Hstrip|].
  intros Hout Houtside.
  assert (Hsame : get_relative_path_from_root resolve inside repo_root
                  = get_relative_path_from_root resolve outside repo_root).
  { rewrite Hstrip, (relative_path_under_root _ _ _ _ Hout).
    destruct rel as [|p0 rest]; [reflexivity|].
    simpl in Houtside |- *. now rewrite Houtside. }
  split; [exact Hsame|].
  unfold get_mirror_paths. now rewrite Hsame.
Qed.

Lemma resolution_strips_output_folder_witness :
  get_relative_path_from_root (fun p => p) (Path_of "/repo/TEX/notes/plan.tex")
    (Path_of "/repo") = Path_of "notes/plan.tex"
  /\ get_mirror_paths (fun p => p) (Path_of "/repo/TEX/notes/plan.tex")
       (Some (Path_of "/repo"))
     = get_mirror_paths (fun p => p) (Path_of "/repo/notes/plan.tex")
         (Some (Path_of "/repo")).
Proof.
  pose proof (resolution_strips_output_folder (fun p => p)
                (Path_of "/repo/TEX/notes/plan.tex")
                (Path_of "/repo/notes/plan.tex") (Path_of "/repo")
                "TEX" ["notes"; "plan.tex"] eq_refl eq_refl) as [Hs Hm].
  split; [exact Hs|].
  exact (proj2 (Hm eq_refl eq_refl)).
Defined.

(** Only one leading segment is dropped. *)
Example strip_is_single :
  get_mirror_paths (fun p => p) (Path_of "/repo/PDF/TEX/a.md")
    (Some (Path_of "/repo"))
  = Returned {| pdf := Path_of "/repo/PDF/TEX/a.pdf";
                tex := Path_of "/repo/TEX/TEX/a.tex";
                recent := Some (Path_of "/repo/recent") |}.
Proof. reflexivity. Qed.

Lemma relative_path_fallback (resolve : Path -> Path)
  (file_path repo_root : Path) :
  is_relative_to (resolve file_path) (resolve repo_root) = false ->
  get_relative_path_from_root resolve file_path repo_root = file_path.
Proof.
  unfold get_relative_path_from_root, is_relative_to.
  now destruct (relative_to (resolve file_path) (resolve repo_root)).
Qed.

Lemma mirror_paths_fallback (resolve : Path -> Path)
  (source_file repo_root : Path) :
  is_relative_to (resolve source_file) (resolve repo_root) = false ->
  name source_file <> "" ->
  get_mirror_paths resolve source_file (Some repo_root)
  = Returned
      {| pdf := joinpath (repo_root // "PDF")
                  (mkPath (anchored source_file)
                     (removelast (segments source_file)
                      ++ [replace_suffix (name source_file) ".pdf"]));
         tex := joinpath (repo_root // "TEX")
                  (mkPath (anchored source_file)
                     (removelast (segments source_file)
                      ++ [replace_suffix (name source_file) ".tex"]));
         recent := Some (repo_root // "recent") |}.
Proof.
  intros Hrel Hnm. unfold get_mirror_paths.
  rewrite (relative_path_fallback _ _ _ Hrel).
  rewrite !(with_suffix_has_name _ _ Hnm) by (reflexivity || discriminate).
  reflexivity.
Qed.

(** C7.  A source that is not relative to the root raises nothing: the
    relative component is the source path as it was given, and, when that
    path has a name, the three output paths are defined. *)
Theorem fallback_when_not_relative (resolve : Path -> Path)
  (source_file repo_root : Path) :
  is_relative_to (resolve source_file) (resolve repo_root) = false ->
  get_relative_path_from_root resolve source_file repo_root = source_file
  /\ (name source_file <> "" ->
      get_mirror_paths resolve source_file (Some repo_root)
      = Returned
          {| pdf := joinpath (repo_root // "PDF")
                      (mkPath (anchored source_file)
                         (removelast (segments source_file)
                          ++ [replace_suffix (name source_file) ".pdf"]));
             tex := joinpath (repo_root // "TEX")
                      (mkPath (anchored source_file)
                         (removelast (segments source_file)
                          ++ [replace_suffix (name source_file) ".tex"]));
             recent := Some (repo_root // "recent") |}).
Proof.
  intros Hrel. split.
  - now apply relative_path_fallback.
  - now apply mirror_paths_fallback.
Qed.

Lemma fallback_when_not_relative_witness :
  get_relative_path_from_root (fun p => p) (Path_of "/elsewhere/x.md")
    (Path_of "/repo") = Path_of "/elsewhere/x.md"
  /\ exists paths,
       get_mirror_paths (fun p => p) (Path_of "/elsewhere/x.md")
         (Some (Path_of "/repo")) = Returned paths.
Proof.
  pose proof (fallback_when_not_relative (fun p => p)
                (Path_of "/elsewhere/x.md") (Path_of "/repo") eq_refl)
    as [Hfb Hpaths].
  split; [exact Hfb|].
  eexists. apply Hpaths. discriminate.
Defined.

(** C10.  For an absolute source path (the form the resolver documents for
    its argument) that is not relative to the root, the targets of
    repository mode are those of simple mode, beside the source; the
    convenience directory is still [repo_root/recent]. *)
Theorem degenerate_targets_outside_root (resolve : Path -> Path)
  (source_file repo_root : Path) :
  is_relative_to (resolve source_file) (resolve repo_root) = false ->
  is_absolute source_file = true ->
  name source_file <> "" ->
  let beside sfx :=
    mkPath (anchored source_file)
      (removelast (segments source_file)
       ++ [replace_suffix (name source_file) sfx]) in
  get_mirror_paths resolve source_file (Some repo_root)
  = Returned {| pdf := beside ".pdf"; tex := beside ".tex";
                recent := Some (repo_root // "recent") |}
  /\ get_mirror_paths resolve source_file None
     = Returned {| pdf := beside ".pdf"; tex := beside ".tex";
                   recent := None |}.
Proof.
  intros Hrel Habs Hnm beside.
  split.
  - rewrite (mirror_paths_fallback _ _ _ Hrel Hnm).
    unfold is_absolute in Habs.
    assert (Hj : forall q segs,
              joinpath q (mkPath (anchored source_file) segs)
              = mkPath (anchored source_file) segs)
      by (intros; unfold joinpath; simpl; now rewrite Habs).
    now rewrite !Hj.
  - unfold get_mirror_paths.
    rewrite !(with_suffix_has_name _ _ Hnm) by (reflexivity || discriminate).
    reflexivity.
Qed.

Lemma degenerate_targets_outside_root_witness :
  get_mirror_paths (fun p => p) (Path_of "/elsewhere/x.md")
    (Some (Path_of "/repo"))
  = Returned {| pdf := Path_of "/elsewhere/x.pdf";
                tex := Path_of "/elsewhere/x.tex";
                recent := Some (Path_of "/repo/recent") |}.
Proof.
  refine (proj1 (degenerate_targets_outside_root (fun p => p)
                   (Path_of "/elsewhere/x.md") (Path_of "/repo")
                   eq_refl eq_refl _)).
  discriminate.
Defined.

(** A relative source path keeps the mirrored prefix in the fallback. *)
Example fallback_relative_source :
  get_mirror_paths (lexical_resolve (Path_of "/home/u"))
    (Path_of "notes/plan.md") (Some (Path_of "/repo"))
  = Returned {| pdf := Path_of "/repo/PDF/notes/plan.pdf";
                tex := Path_of "/repo/TEX/notes/plan.tex";
                recent := Some (Path_of "/repo/recent") |}.
Proof. reflexivity. Qed.

(** ** Repository locator *)

Lemma nth_parent_fixed (k : nat) (p : Path) :
  p = parent p -> nth_parent k p = p.
Proof.
  intros H; induction k as [|k IH]; simpl; [reflexivity|].
  now rewrite <- H.
Qed.

(** the [k]-th ancestor keeps the anchor and loses the last [k] components *)
Lemma nth_parent_segments (k : nat) (p : Path) :
  nth_parent k p
  = mkPath (anchored p)
      (firstn (List.length (segments p) - k) (segments p)).
Proof.
  revert p; induction k as [|k IH]; intros [a segs]; simpl.
  - now rewrite Nat.sub_0_r, firstn_all.
  - rewrite IH. unfold parent; simpl. f_equal.
    rewrite removelast_firstn_len, firstn_firstn, length_firstn.
    f_equal. lia.
Qed.

Lemma find_repo_root_loop_spec (f : FS) (current : Path) :
  match find_repo_root_loop f current with
  | Some d =>
      exists k, d = nth_parent k current
                /\ d <> parent d
                /\ has_marker f d = true
                /\ forall j, j < k -> has_marker f (nth_parent j current) = false
  | None =>
      forall k, nth_parent k current <> parent (nth_parent k current) ->
                has_marker f (nth_parent k current) = false
  end.
Proof.
  funelim (find_repo_root_loop f current).
  - intros k Hk. now rewrite (nth_parent_fixed k _ e) in Hk.
  - destruct (has_marker f current) eqn:Hm.
    + exists 0. repeat split; try assumption. intros j Hj; lia.
    + destruct (find_repo_root_loop f (parent current)) as [d|].
      * destruct H as (k & Hd & Hne' & Hmd & Hnear).
        exists (S k). repeat split; try assumption.
        intros [|j] Hj; simpl; [assumption|]. apply Hnear; lia.
      * intros [|k] Hk; simpl in *; [assumption|]. now apply H.
Qed.

(** With a marker in the file-system root only, the root is the nearest
    marked ancestor of [/srv/notes], and the locator returns none. *)
Lemma find_repo_root_skips_fs_root :
  ~ returns_nearest_marked_ancestor (fun p => p) fs_git_at_root
      (Path_of "/srv/notes").
Proof.
  intros H. specialize (H 2 eq_refl).
  assert (Hnear : forall j, j < 2 ->
            has_marker fs_git_at_root
              (nth_parent j (Path_of "/srv/notes")) = false).
  { intros [|[|j]] Hj; [reflexivity|reflexivity|lia]. }
  specialize (H Hnear). vm_compute in H. discriminate.
Qed.

(** On a machine whose probes never fail: what the locator returns is the
    nearest directory, among the start and its ancestors other than the top
    of the walk (the file-system root, which is its own parent and is never
    examined), that holds a marker; it returns none exactly when no such
    directory holds one. *)
Theorem find_repo_root_nearest_below_top (resolve : Path -> Path) (f : FS)
  (start_path : Path) :
  match find_repo_root resolve f start_path with
  | Some d =>
      exists k, d = nth_parent k (resolve start_path)
                /\ d <> parent d
                /\ has_marker f d = true
                /\ forall j, j < k ->
                     has_marker f (nth_parent j (resolve start_path)) = false
  | None =>
      forall k,
        nth_parent k (resolve start_path)
        <> parent (nth_parent k (resolve start_path)) ->
        has_marker f (nth_parent k (resolve start_path)) = false
  end.
Proof. unfold find_repo_root. apply find_repo_root_loop_spec. Qed.

Example find_repo_root_nearest :
  find_repo_root (fun p => p)
    (fun p => if path_eqb p (Path_of "/a/.git") then Some Dir
              else if path_eqb p (Path_of "/a/b/TEX") then Some Dir
              else None)
    (Path_of "/a/b/c/d")
  = Some (Path_of "/a/b").
Proof. reflexivity. Qed.

Example find_repo_root_none :
  find_repo_root (fun p => p) (fun _ => None) (Path_of "/a/b/c") = None.
Proof. reflexivity. Qed.

(** *** The locator with its error exits *)

Lemma has_marker_probing_total (f : FS) (current : Path) :
  has_marker_probing (probe_of f) current = Returned (has_marker f current).
Proof.
  unfold has_marker_probing, probe_of, has_marker.
  destruct (path_exists f (current // "PDF")); [reflexivity|].
  destruct (path_exists f (current // "TEX")); reflexivity.
Qed.

Lemma find_repo_root_loop_probing_total (f : FS) (current : Path) :
  find_repo_root_loop_probing (probe_of f) current
  = Returned (find_repo_root_loop f current).
Proof.
  funelim (find_repo_root_loop f current).
  - simp find_repo_root_loop_probing. rewrite Heq. simpl. reflexivity.
  - simp find_repo_root_loop_probing. rewrite Heq. simpl.
    rewrite has_marker_probing_total.
    destruct (has_marker f current); [reflexivity|assumption].
Qed.

(** When neither the resolution nor a probe fails, the locator with error
    exits is the locator used in the rest of this file. *)
Lemma find_repo_root_probing_total (resolve : Path -> Path) (f : FS)
  (start_path : Path) :
  find_repo_root_probing (fun p => Returned (resolve p)) (probe_of f)
    start_path
  = Returned (find_repo_root resolve f start_path).
Proof.
  unfold find_repo_root_probing, find_repo_root.
  apply find_repo_root_loop_probing_total.
Qed.

Lemma find_repo_root_loop_probing_spec (probe : Probe) (current : Path) :
  match find_repo_root_loop_probing probe current with
  | Returned (Some d) =>
      exists k, d = nth_parent k current
                /\ d <> parent d
                /\ has_marker_probing probe d = Returned true
                /\ forall j, j < k ->
                     has_marker_probing probe (nth_parent j current)
                     = Returned false
  | Returned None =>
      forall k, nth_parent k current <> parent (nth_parent k current) ->
                has_marker_probing probe (nth_parent k current)
                = Returned false
  | Raised e =>
      exists k, nth_parent k current <> parent (nth_parent k current)
                /\ has_marker_probing probe (nth_parent k current) = Raised e
                /\ forall j, j < k ->
                     has_marker_probing probe (nth_parent j current)
                     = Returned false
  end.
Proof.
  funelim (find_repo_root_loop_probing probe current).
  - intros k Hk. now rewrite (nth_parent_fixed k _ e) in Hk.
  - clear Heqcall.
    destruct (has_marker_probing probe current) as [[|]|e] eqn:Hm.
    + exists 0. repeat split; try assumption. intros j Hj; lia.
    + specialize (H false).
      destruct (find_repo_root_loop_probing probe (parent current))
        as [[d|]|e].
      * destruct H as (k & Hd & Hne' & Hmd & Hnear).
        exists (S k). repeat split; try assumption.
        intros [|j] Hj; simpl; [assumption|]. apply Hnear; lia.
      * intros [|k] Hk; simpl in *; [assumption|]. now apply H.
      * destruct H as (k & Hk & Hme & Hnear).
        exists (S k). repeat split; try assumption.
        intros [|j] Hj; simpl; [assumption|]. apply Hnear; lia.
    + exists 0. repeat split; try assumption. intros j Hj; lia.
Qed.

(** C4, as stated, fails twice.  With a marker in the file-system root
    only, the root is the nearest marked ancestor of [/srv/notes] and the
    locator returns none.  And the locator can raise: when the probes below
    [/srv] are refused (a directory that cannot be read), the error of the
    first probe leaves [find_repo_root]. *)
Lemma find_repo_root_claim_fails :
  ~ returns_nearest_marked_ancestor (fun p => p) fs_git_at_root
      (Path_of "/srv/notes")
  /\ find_repo_root_probing (fun p => Returned p) probe_srv_denied
       (Path_of "/srv/notes")
     = Raised OSError.
Proof.
  split; [exact find_repo_root_skips_fs_root|reflexivity].
Qed.

(** what [has_marker_probing] says, test by test *)
Lemma has_marker_probing_spec (probe : Probe) (d : Path) :
  match has_marker_probing probe d with
  | Returned true => marker_found probe d
  | Returned false => no_marker probe d
  | Raised e => probe_raised probe d e
  end.
Proof.
  unfold has_marker_probing, marker_found, no_marker, probe_raised.
  destruct (probe (d // "PDF")) as [[|]|e1]; [now left| |now left].
  destruct (probe (d // "TEX")) as [[|]|e2];
    [right; left; now split| |right; left; now split].
  destruct (probe (d // ".git")) as [[|]|e3].
  - right; right. now repeat split.
  - now repeat split.
  - right; right. now repeat split.
Qed.

Lemma has_marker_probing_found (probe : Probe) (d : Path) :
  has_marker_probing probe d = Returned true -> marker_found probe d.
Proof.
  intros H. pose proof (has_marker_probing_spec probe d) as Hs.
  now rewrite H in Hs.
Qed.

Lemma has_marker_probing_none (probe : Probe) (d : Path) :
  has_marker_probing probe d = Returned false -> no_marker probe d.
Proof.
  intros H. pose proof (has_marker_probing_spec probe d) as Hs.
  now rewrite H in Hs.
Qed.

Lemma has_marker_probing_raised (probe : Probe) (d : Path) (e : exn) :
  has_marker_probing probe d = Raised e -> probe_raised probe d e.
Proof.
  intros H. pose proof (has_marker_probing_spec probe d) as Hs.
  now rewrite H in Hs.
Qed.

(** C4, amended.  The locator always ends, in one of three ways.
    It returns a directory: the nearest one, among the resolved start and its
    ancestors other than the top of the walk (the file-system root, never
    examined), in which the tests found a [PDF], [TEX] or [.git] entry, the
    tests in every nearer directory having all answered no.
    It returns none: in every such directory the three tests answered no.
    It raises: the error is that of resolving the start, or that of the
    first test that failed on the way up, every test before it having
    answered no; the locator raises no error of its own. *)
Theorem find_repo_root_nearest_or_error (resolve : Path -> Outcome Path)
  (probe : Probe) (start_path : Path) :
  match find_repo_root_probing resolve probe start_path with
  | Returned (Some d) =>
      exists current k,
        resolve start_path = Returned current
        /\ d = nth_parent k current
        /\ d <> parent d
        /\ marker_found probe d
        /\ forall j, j < k -> no_marker probe (nth_parent j current)
  | Returned None =>
      exists current,
        resolve start_path = Returned current
        /\ forall k, nth_parent k current <> parent (nth_parent k current) ->
             no_marker probe (nth_parent k current)
  | Raised e =>
      resolve start_path = Raised e
      \/ exists current k,
           resolve start_path = Returned current
           /\ nth_parent k current <> parent (nth_parent k current)
           /\ probe_raised probe (nth_parent k current) e
           /\ forall j, j < k -> no_marker probe (nth_parent j current)
  end.
Proof.
  unfold find_repo_root_probing.
  destruct (resolve start_path) as [current|e]; [|now left].
  pose proof (find_repo_root_loop_probing_spec probe current) as Hspec.
  destruct (find_repo_root_loop_probing probe current) as [[d|]|e].
  - destruct Hspec as (k & Hd & Hne & Hm & Hnear). exists current, k.
    split; [reflexivity|]. split; [assumption|]. split; [assumption|].
    split; [now apply has_marker_probing_found|].
    intros j Hj. apply has_marker_probing_none. now apply Hnear.
  - exists current. split; [reflexivity|].
    intros k Hk. apply has_marker_probing_none. now apply Hspec.
  - right. destruct Hspec as (k & Hne & Hm & Hnear). exists current, k.
    split; [reflexivity|]. split; [assumption|].
    split; [now apply has_marker_probing_raised|].
    intros j Hj. apply has_marker_probing_none. now apply Hnear.
Qed.

Example find_repo_root_probing_marker_before_denied :
  find_repo_root_probing (fun p => Returned p)
    (fun p => if path_eqb p (Path_of "/srv/notes/.git") then Returned true
              else if is_relative_to p (Path_of "/srv/notes") then Returned false
              else Raised OSError)
    (Path_of "/srv/notes/draft")
  = Returned (Some (Path_of "/srv/notes")).
Proof. reflexivity. Qed.

(** ** Traces *)

Section Emits.

Context {A B : Type} (P : Event -> Prop).

Lemma emits_ret (a : A) : emits P (ret a).
Proof. intros w; exists []; simpl; now rewrite app_nil_r. Qed.

Lemma emits_raise (e : exn) : emits P (@raise A e).
Proof. intros w; exists []; simpl; now rewrite app_nil_r. Qed.

Lemma emits_lift_outcome (o : Outcome A) : emits P (lift_outcome o).
Proof. intros w; exists []; simpl; now rewrite app_nil_r. Qed.

Lemma emits_read_fs (q : FS -> A) : emits P (read_fs q).
Proof. intros w; exists []; simpl; now rewrite app_nil_r. Qed.

Lemma emits_lift_fs (op : FS -> Outcome A * FS) : emits P (lift_fs op).
Proof.
  intros w; exists []; unfold lift_fs.
  destruct (op (fs w)); simpl; now rewrite app_nil_r.
Qed.

Lemma emits_log (e : Event) : P e -> emits P (log e).
Proof. intros He w; exists [e]; simpl; auto. Qed.

Lemma emits_bind (m : M A) (k : A -> M B) :
  emits P m -> (forall a, emits P (k a)) -> emits P (bind m k).
Proof.
  intros Hm Hk w. unfold bind.
  destruct (Hm w) as (evs & Htr & Hall).
  destruct (m w) as [[a|e] w1]; simpl in *.
  - destruct (Hk a w1) as (evs' & Htr' & Hall').
    exists (evs ++ evs')%list. split.
    + now rewrite Htr', Htr, app_assoc.
    + apply Forall_app; auto.
  - exists evs; auto.
Qed.

Lemma emits_try_except (body handler : M A) (e : exn) :
  emits P body -> emits P handler -> emits P (try_except body e handler).
Proof.
  intros Hb Hh w. unfold try_except.
  destruct (Hb w) as (evs & Htr & Hall).
  destruct (body w) as [[a|e'] w1]; simpl in *.
  - exists evs; auto.
  - destruct (exn_eqb e e').
    + destruct (Hh w1) as (evs' & Htr' & Hall').
      exists (evs ++ evs')%list. split.
      * now rewrite Htr', Htr, app_assoc.
      * apply Forall_app; auto.
    + exists evs; auto.
Qed.

End Emits.

Lemma emits_with_TemporaryDirectory {A} (P : Event -> Prop) (os : OS)
  (body : Path -> M A) :
  (forall d, P (TemporaryDirectory_enter d)) ->
  (forall d, P (TemporaryDirectory_cleanup d)) ->
  (forall d, emits P (body d)) ->
  emits P (with_TemporaryDirectory os body).
Proof.
  intros Hin Hout Hb w. unfold with_TemporaryDirectory.
  destruct (os_mkdtemp os (fs w)) as [d|e].
  - match goal with |- context [body d ?w1] => destruct (Hb d w1) as (evs & Htr & Hall);
      destruct (body d w1) as [r w2] end.
    simpl in *.
    exists (TemporaryDirectory_enter d :: evs ++ [TemporaryDirectory_cleanup d])%list.
    split.
    + rewrite Htr, <- !app_assoc. reflexivity.
    + constructor; [apply Hin|]. apply Forall_app; split; auto.
  - exists []; simpl; now rewrite app_nil_r.
Qed.

Lemma emits_weaken {A} (P Q : Event -> Prop) (m : M A) :
  (forall e, P e -> Q e) -> emits P m -> emits Q m.
Proof.
  intros HPQ Hm w. destruct (Hm w) as (evs & Htr & Hall).
  exists evs; split; [assumption|]. eapply Forall_impl; eauto.
Qed.

(** discharge [emits P m] by following the structure of [m] *)
Ltac emits_step :=
  match goal with
  | |- emits _ (bind _ _) => apply emits_bind; [|intros ?]
  | |- emits _ (ret _) => apply emits_ret
  | |- emits _ (raise _) => apply emits_raise
  | |- emits _ (lift_outcome _) => apply emits_lift_outcome
  | |- emits _ (read_fs _) => apply emits_read_fs
  | |- emits _ (lift_fs _) => apply emits_lift_fs
  | |- emits _ (log _) => apply emits_log
  | |- emits _ (try_except _ _ _) => apply emits_try_except
  | |- emits _ (with_TemporaryDirectory _ _) =>
      apply emits_with_TemporaryDirectory; [intros ?|intros ?|intros ?]
  | |- emits _ (if ?b then _ else _) => destruct b
  | |- emits _ (match ?o with Some _ => _ | None => _ end) => destruct o
  end.

Ltac emits_stage :=
  repeat emits_step; reflexivity.

Lemma emits_convert_md_to_tex (os : OS) (input_md output_tex : Path) :
  emits (fun e => tex_stage_event e = true)
        (convert_md_to_tex os input_md output_tex).
Proof.
  unfold convert_md_to_tex, mkdir_parents, subprocess_run. emits_stage.
Qed.

Lemma emits_convert_md_to_pdf_direct (os : OS) (input_md output_pdf : Path) :
  emits (fun e => pdf_direct_stage_event e = true)
        (convert_md_to_pdf_direct os input_md output_pdf).
Proof.
  unfold convert_md_to_pdf_direct, mkdir_parents, subprocess_run. emits_stage.
Qed.

Lemma emits_compile_body (os : OS) (tex_file output_pdf tmpdir_path : Path) :
  emits (fun e => compile_body_event e = true)
        (compile_in_tmpdir os tex_file output_pdf tmpdir_path).
Proof.
  unfold compile_in_tmpdir, shutil_copy, shutil_copytree, shutil_move,
    subprocess_run.
  cbv zeta. emits_stage.
Qed.

Lemma emits_compile_tex_to_pdf (os : OS) (tex_file output_pdf : Path) :
  emits (fun e => compile_stage_event e = true)
        (compile_tex_to_pdf os tex_file output_pdf).
Proof.
  unfold compile_tex_to_pdf, mkdir_parents.
  apply emits_bind; [emits_stage|intros _].
  apply emits_bind; [emits_stage|intros _].
  apply emits_with_TemporaryDirectory; try reflexivity.
  intros d. eapply emits_weaken; [|apply emits_compile_body].
  intros e He. unfold compile_body_event in He.
  now apply andb_true_iff in He.
Qed.

Lemma emits_check_dependencies (os : OS) :
  emits (fun e => which_probe_event e = true) (check_dependencies os).
Proof.
  unfold check_dependencies, subprocess_run. cbv zeta. emits_stage.
Qed.

(** ** Pipeline *)

Lemma events_since_app (w w' : World) (evs : list Event) :
  trace w' = (trace w ++ evs)%list -> events_since w w' = evs.
Proof.
  intros H. unfold events_since. rewrite H, skipn_app, skipn_all, Nat.sub_diag.
  reflexivity.
Qed.

Lemma build_with_paths (os : OS) (source_file : Path) (mode : Mode)
  (repo_root : option Path) (paths : MirrorPaths) (w : World) :
  get_mirror_paths (os_resolve os) source_file repo_root = Returned paths ->
  build_markdown_outputs os source_file mode repo_root w
  = run_stages os source_file mode paths w.
Proof.
  intros H. unfold build_markdown_outputs, bind, lift_outcome. now rewrite H.
Qed.

Lemma tex_stage_no_compile_no_copy (e : Event) :
  tex_stage_event e = true ->
  is_call_compile e = false /\ runs_program "latexmk" e = false
  /\ is_call_copy e = false.
Proof.
  destruct e as [| | | |argv cwd| | | | | |]; simpl; try discriminate; auto.
  destruct argv as [|p argv]; [discriminate|]. destruct cwd; [discriminate|].
  intros H; apply String.eqb_eq in H; subst p. auto.
Qed.

Lemma tex_stage_no_copy (e : Event) :
  tex_stage_event e = true -> is_call_copy e = false.
Proof. now destruct e. Qed.

Lemma pdf_direct_stage_no_copy (e : Event) :
  pdf_direct_stage_event e = true -> is_call_copy e = false.
Proof. now destruct e. Qed.

Lemma compile_stage_no_copy (e : Event) :
  compile_stage_event e = true -> is_call_copy e = false.
Proof. now destruct e. Qed.

(** a stage that did not return [True] ends the run in mode [both] *)
Lemma run_both_tex_failed (os : OS) (source_file : Path) (paths : MirrorPaths)
  (w : World) :
  fst (convert_md_to_tex os source_file (tex paths) w) <> Returned true ->
  run_stages os source_file both paths w
  = convert_md_to_tex os source_file (tex paths) w.
Proof.
  intros H. unfold run_stages, bind at 1.
  destruct (convert_md_to_tex os source_file (tex paths) w) as [[[|]|e] w1];
    simpl in *; try reflexivity.
  now elim H.
Qed.

Lemma run_both_compile_failed (os : OS) (source_file : Path)
  (paths : MirrorPaths) (w : World) :
  fst (convert_md_to_tex os source_file (tex paths) w) = Returned true ->
  fst (compile_tex_to_pdf os (tex paths) (pdf paths)
         (snd (convert_md_to_tex os source_file (tex paths) w)))
  <> Returned true ->
  run_stages os source_file both paths w
  = compile_tex_to_pdf os (tex paths) (pdf paths)
      (snd (convert_md_to_tex os source_file (tex paths) w)).
Proof.
  intros Ht Hc. unfold run_stages, bind at 1.
  destruct (convert_md_to_tex os source_file (tex paths) w) as [r1 w1];
    simpl in *; subst r1. simpl. unfold bind at 1.
  destruct (compile_tex_to_pdf os (tex paths) (pdf paths) w1)
    as [[[|]|e] w2]; simpl in *; try reflexivity.
  now elim Hc.
Qed.

(** the two single-stage modes stop in the same way *)
Lemma single_stage_fail_fast (os : OS) (source_file : Path)
  (paths : MirrorPaths) (w : World) :
  (fst (convert_md_to_pdf_direct os source_file (pdf paths) w) <> Returned true ->
   run_stages os source_file pdf_only paths w
   = convert_md_to_pdf_direct os source_file (pdf paths) w)
  /\ (fst (convert_md_to_tex os source_file (tex paths) w) <> Returned true ->
      run_stages os source_file tex_only paths w
      = convert_md_to_tex os source_file (tex paths) w).
Proof.
  split; intros H; unfold run_stages, bind at 1.
  - destruct (convert_md_to_pdf_direct os source_file (pdf paths) w)
      as [[[|]|e] w1]; simpl in *; try reflexivity. now elim H.
  - destruct (convert_md_to_tex os source_file (tex paths) w)
      as [[[|]|e] w1]; simpl in *; try reflexivity. now elim H.
Qed.

(** C5.  Mode [both].  When the LaTeX stage does not return [True] (it
    returns [False] or raises), the run is exactly that stage: no call of
    [compile_tex_to_pdf], no [latexmk] process, no call of [copy_to_recent],
    and the run does not report success.  When the LaTeX stage succeeds and
    the compile stage does not return [True], the run ends with the compile
    stage: no call of [copy_to_recent], and no success reported. *)
Theorem both_mode_fail_fast (os : OS) (source_file : Path)
  (repo_root : option Path) (paths : MirrorPaths) (w : World) :
  get_mirror_paths (os_resolve os) source_file repo_root = Returned paths ->
  let tex_stage := convert_md_to_tex os source_file (tex paths) w in
  let pdf_stage :=
    compile_tex_to_pdf os (tex paths) (pdf paths) (snd tex_stage) in
  let run := build_markdown_outputs os source_file both repo_root w in
  (fst tex_stage <> Returned true ->
   run = tex_stage
   /\ fst run <> Returned true
   /\ exists evs,
        trace (snd run) = (trace w ++ evs)%list
        /\ Forall (fun e => is_call_compile e = false
                            /\ runs_program "latexmk" e = false
                            /\ is_call_copy e = false) evs)
  /\ (fst tex_stage = Returned true ->
      fst pdf_stage <> Returned true ->
      run = pdf_stage
      /\ fst run <> Returned true
      /\ exists evs,
           trace (snd run) = (trace w ++ evs)%list
           /\ Forall (fun e => is_call_copy e = false) evs).
Proof.
  intros Hpaths tex_stage pdf_stage run.
  assert (Hrun : run = run_stages os source_file both paths w)
    by (apply build_with_paths; assumption).
  split.
  - intros Hfail.
    assert (E : run = tex_stage)
      by (rewrite Hrun; now apply run_both_tex_failed).
    split; [exact E|]. split; [now rewrite E|].
    rewrite E.
    destruct (emits_convert_md_to_tex os source_file (tex paths) w)
      as (evs & Htr & Hall).
    exists evs; split; [exact Htr|].
    eapply Forall_impl; [|exact Hall]. apply tex_stage_no_compile_no_copy.
  - intros Hok Hfail.
    assert (E : run = pdf_stage)
      by (rewrite Hrun; now apply run_both_compile_failed).
    split; [exact E|]. split; [now rewrite E|].
    rewrite E.
    destruct (emits_convert_md_to_tex os source_file (tex paths) w)
      as (evs1 & Htr1 & Hall1).
    destruct (emits_compile_tex_to_pdf os (tex paths) (pdf paths)
                (snd tex_stage)) as (evs2 & Htr2 & Hall2).
    exists (evs1 ++ evs2)%list. split.
    + unfold pdf_stage. rewrite Htr2. unfold tex_stage. rewrite Htr1.
      now rewrite app_assoc.
    + apply Forall_app; split.
      * eapply Forall_impl; [|exact Hall1]. apply tex_stage_no_copy.
      * eapply Forall_impl; [|exact Hall2]. apply compile_stage_no_copy.
Qed.

(** ** Concrete runs *)

Example demo_both_succeeds :
  let run := build_markdown_outputs (demo_os all_succeed)
               (Path_of "/repo/notes/plan.md") both (Some (Path_of "/repo"))
               demo_world in
  fst run = Returned true
  /\ map (path_exists (fs (snd run)))
       [Path_of "/repo/TEX/notes/plan.tex"; Path_of "/repo/PDF/notes/plan.pdf";
        Path_of "/repo/recent/plan.tex"; Path_of "/repo/recent/plan.pdf";
        Path_of "/tmp/tmpq3x7"; Path_of "/tmp/tmpq3x7/plan.aux"]
     = [true; true; true; true; false; false]
  /\ filter is_call_copy (trace (snd run))
     = [Call_copy_to_recent (Path_of "/repo/TEX/notes/plan.tex")
          (Path_of "/repo/recent") "tex";
        Call_copy_to_recent (Path_of "/repo/PDF/notes/plan.pdf")
          (Path_of "/repo/recent") "pdf"].
Proof. vm_compute. auto. Qed.

Lemma both_mode_fail_fast_witness :
  (let os := demo_os (fails "pandoc") in
   build_markdown_outputs os (Path_of "/repo/notes/plan.md") both
     (Some (Path_of "/repo")) demo_world
   = convert_md_to_tex os (Path_of "/repo/notes/plan.md") (tex demo_paths)
       demo_world)
  /\ (let os := demo_os (fails "latexmk") in
      build_markdown_outputs os (Path_of "/repo/notes/plan.md") both
        (Some (Path_of "/repo")) demo_world
      = compile_tex_to_pdf os (tex demo_paths) (pdf demo_paths)
          (snd (convert_md_to_tex os (Path_of "/repo/notes/plan.md")
                  (tex demo_paths) demo_world))).
Proof.
  split.
  - refine (proj1 (proj1 (both_mode_fail_fast (demo_os (fails "pandoc"))
                            (Path_of "/repo/notes/plan.md")
                            (Some (Path_of "/repo")) demo_paths demo_world
                            eq_refl) _)).
    vm_compute. discriminate.
  - refine (proj1 (proj2 (both_mode_fail_fast (demo_os (fails "latexmk"))
                            (Path_of "/repo/notes/plan.md")
                            (Some (Path_of "/repo")) demo_paths demo_world
                            eq_refl) _ _)).
    + vm_compute. reflexivity.
    + vm_compute. discriminate.
Defined.

(** ** The temporary directory of the compile stage *)

Lemma is_relative_to_self (d : Path) : is_relative_to d d = true.
Proof.
  unfold is_relative_to, relative_to. rewrite Bool.eqb_reflx.
  rewrite <- (app_nil_r (segments d)) at 2. now rewrite strip_prefix_app.
Qed.

Lemma compile_body_no_enter (e : Event) :
  compile_body_event e = true -> is_tmpdir_enter e = false.
Proof.
  unfold compile_body_event. intros H. apply andb_true_iff in H as [_ H].
  now apply negb_true_iff in H.
Qed.

(** Leaving the [with] block removes the directory it created, whatever the
    block did and however it was left. *)
Lemma with_TemporaryDirectory_cleans {A} (os : OS) (body : Path -> M A)
  (w : World) :
  (forall d, emits (fun e => is_tmpdir_enter e = false) (body d)) ->
  exists evs,
    trace (snd (with_TemporaryDirectory os body w)) = (trace w ++ evs)%list
    /\ forall d, In (TemporaryDirectory_enter d) evs ->
         forall p, is_relative_to p d = true ->
           fs (snd (with_TemporaryDirectory os body w)) p = None.
Proof.
  intros Hbody. unfold with_TemporaryDirectory.
  destruct (os_mkdtemp os (fs w)) as [tmpdir|e].
  - match goal with
    | |- context [body tmpdir ?w1] =>
        destruct (Hbody tmpdir w1) as (evs & Htr & Hall);
        destruct (body tmpdir w1) as [r w2]
    end.
    simpl in *.
    exists (TemporaryDirectory_enter tmpdir
            :: evs ++ [TemporaryDirectory_cleanup tmpdir])%list.
    split; [rewrite Htr, <- !app_assoc; reflexivity|].
    intros d Hin p Hp.
    assert (d = tmpdir) as ->.
    { destruct Hin as [[= ->]|Hin]; [reflexivity|].
      apply in_app_or in Hin as [Hin|[Hin|[]]]; [|discriminate].
      rewrite Forall_forall in Hall. specialize (Hall _ Hin). discriminate. }
    unfold rmtree. now rewrite Hp.
  - exists []; simpl. split; [now rewrite app_nil_r|]. intros d [].
Qed.

Lemma compile_tex_to_pdf_steps (os : OS) (tex_file output_pdf : Path)
  (w : World) :
  let started := (trace w ++ [Call_compile_tex_to_pdf tex_file output_pdf;
                              Mkdir (parent output_pdf)])%list in
  compile_tex_to_pdf os tex_file output_pdf w
  = match os_mkdir os (parent output_pdf) (fs w) with
    | (Returned _, f1) =>
        with_TemporaryDirectory os (compile_in_tmpdir os tex_file output_pdf)
          (mkWorld f1 started)
    | (Raised e, f1) => (Raised e, mkWorld f1 started)
    end.
Proof.
  unfold compile_tex_to_pdf, mkdir_parents, bind, log, lift_fs; simpl.
  rewrite <- app_assoc; simpl.
  now destruct (os_mkdir os (parent output_pdf) (fs w)) as [[[]|e] f1].
Qed.

(** C6.  Whatever the tools and the file operations do, and whether
    [compile_tex_to_pdf] returns [True], returns [False] or raises: a
    temporary directory created during the call does not exist when the call
    is over, and nothing exists below it. *)
Theorem compile_removes_temporary_directory (os : OS)
  (tex_file output_pdf : Path) (w : World) (d : Path) :
  let w' := snd (compile_tex_to_pdf os tex_file output_pdf w) in
  In (TemporaryDirectory_enter d) (events_since w w') ->
  path_exists (fs w') d = false
  /\ forall p, is_relative_to p d = true -> path_exists (fs w') p = false.
Proof.
  intros w'.
  assert (Hgen : In (TemporaryDirectory_enter d) (events_since w w') ->
                 forall p, is_relative_to p d = true -> fs w' p = None).
  { subst w'. rewrite compile_tex_to_pdf_steps. cbv zeta.
    destruct (os_mkdir os (parent output_pdf) (fs w)) as [[[]|e] f1].
    - match goal with
      | |- context [with_TemporaryDirectory os ?body ?w1] =>
          destruct (with_TemporaryDirectory_cleans os body w1)
            as (evs & Htr & Hclean);
          [intros d0; eapply emits_weaken;
             [apply compile_body_no_enter
             |apply (emits_compile_body os tex_file output_pdf d0)]|]
      end.
      intros Hin. apply Hclean.
      cbn [trace] in Htr. rewrite <- app_assoc in Htr.
      rewrite (events_since_app _ _ _ Htr) in Hin.
      destruct Hin as [Hin|[Hin|Hin]]; try discriminate. exact Hin.
    - cbn [snd]. intros Hin.
      rewrite (events_since_app w _
                 [Call_compile_tex_to_pdf tex_file output_pdf;
                  Mkdir (parent output_pdf)]) in Hin
        by reflexivity.
      destruct Hin as [Hin|[Hin|[]]]; discriminate. }
  intros Hin. unfold path_exists. split.
  - now rewrite (Hgen Hin d (is_relative_to_self d)).
  - intros p Hp. now rewrite (Hgen Hin p Hp).
Qed.

Lemma compile_removes_temporary_directory_witness :
  (let run := compile_tex_to_pdf (demo_os all_succeed) (tex demo_paths)
                (pdf demo_paths) demo_world_tex in
   fst run = Returned true
   /\ path_exists (fs (snd run)) (Path_of "/tmp/tmpq3x7") = false)
  /\ (let run := compile_tex_to_pdf (demo_os (fails "latexmk"))
                   (tex demo_paths) (pdf demo_paths) demo_world_tex in
      fst run = Returned false
      /\ path_exists (fs (snd run)) (Path_of "/tmp/tmpq3x7") = false)
  /\ (let run := compile_tex_to_pdf (demo_os all_succeed) (tex demo_paths)
                   (pdf demo_paths) demo_world in
      fst run = Raised OSError
      /\ path_exists (fs (snd run)) (Path_of "/tmp/tmpq3x7") = false).
Proof.
  split; [|split]; cbv zeta; (split; [reflexivity|]).
  - refine (proj1 (compile_removes_temporary_directory (demo_os all_succeed)
                     (tex demo_paths) (pdf demo_paths) demo_world_tex
                     (Path_of "/tmp/tmpq3x7") _)).
    vm_compute. auto.
  - refine (proj1 (compile_removes_temporary_directory
                     (demo_os (fails "latexmk"))
                     (tex demo_paths) (pdf demo_paths) demo_world_tex
                     (Path_of "/tmp/tmpq3x7") _)).
    vm_compute. auto.
  - refine (proj1 (compile_removes_temporary_directory (demo_os all_succeed)
                     (tex demo_paths) (pdf demo_paths) demo_world
                     (Path_of "/tmp/tmpq3x7") _)).
    vm_compute. auto.
Defined.

(** ** Convenience copy *)

Lemma emits_run_stages_no_recent (os : OS) (source_file : Path) (mode : Mode)
  (paths : MirrorPaths) :
  recent paths = None ->
  emits (fun e => is_call_copy e = false)
        (run_stages os source_file mode paths).
Proof.
  intros Hnone. unfold run_stages, copy_if_recent. rewrite Hnone.
  destruct mode.
  - apply emits_bind.
    + eapply emits_weaken; [apply tex_stage_no_copy
                           |apply emits_convert_md_to_tex].
    + intros ok. destruct (negb ok); [apply emits_ret|].
      apply emits_bind.
      * eapply emits_weaken; [apply compile_stage_no_copy
                             |apply emits_compile_tex_to_pdf].
      * intros ok'. repeat emits_step.
  - apply emits_bind.
    + eapply emits_weaken; [apply pdf_direct_stage_no_copy
                           |apply emits_convert_md_to_pdf_direct].
    + intros ok. repeat emits_step.
  - apply emits_bind.
    + eapply emits_weaken; [apply tex_stage_no_copy
                           |apply emits_convert_md_to_tex].
    + intros ok. repeat emits_step.
Qed.

(** C8.  When the resolved paths hold no convenience directory, a run in any
    mode never calls [copy_to_recent].  Called on a file that does not
    exist, [copy_to_recent] returns normally: the file system is unchanged
    and neither a directory creation nor a copy is attempted. *)
Theorem convenience_copy_skipped (os : OS) (w : World) :
  (forall source_file mode repo_root paths,
     get_mirror_paths (os_resolve os) source_file repo_root = Returned paths ->
     recent paths = None ->
     exists evs,
       trace (snd (build_markdown_outputs os source_file mode repo_root w))
       = (trace w ++ evs)%list
       /\ Forall (fun e => is_call_copy e = false) evs)
  /\ (forall source_file recent_dir file_type,
        path_exists (fs w) source_file = false ->
        copy_to_recent os source_file recent_dir file_type w
        = (Returned tt,
           mkWorld (fs w)
             (trace w
              ++ [Call_copy_to_recent source_file recent_dir file_type]))).
Proof.
  split.
  - intros source_file mode repo_root paths Hpaths Hnone.
    rewrite (build_with_paths _ _ _ _ _ _ Hpaths).
    apply emits_run_stages_no_recent; assumption.
  - intros source_file recent_dir file_type Hmissing.
    unfold copy_to_recent, bind, log, read_fs; simpl.
    now rewrite Hmissing.
Qed.

Lemma convenience_copy_skipped_witness :
  (exists evs,
     trace (snd (build_markdown_outputs (demo_os all_succeed)
                   (Path_of "/repo/notes/plan.md") both None demo_world))
     = (trace demo_world ++ evs)%list
     /\ Forall (fun e => is_call_copy e = false) evs)
  /\ copy_to_recent (demo_os all_succeed) (Path_of "/repo/PDF/notes/plan.pdf")
       (Path_of "/repo/recent") "pdf" demo_world
     = (Returned tt,
        mkWorld (fs demo_world)
          [Call_copy_to_recent (Path_of "/repo/PDF/notes/plan.pdf")
             (Path_of "/repo/recent") "pdf"]).
Proof.
  destruct (convenience_copy_skipped (demo_os all_succeed) demo_world)
    as [Hskip Hmissing].
  split.
  - apply (Hskip (Path_of "/repo/notes/plan.md") both None
             {| pdf := Path_of "/repo/notes/plan.pdf";
                tex := Path_of "/repo/notes/plan.tex";
                recent := None |}); reflexivity.
  - apply (Hmissing (Path_of "/repo/PDF/notes/plan.pdf")
             (Path_of "/repo/recent") "pdf"). reflexivity.
Defined.

(** ** Simple mode *)

(** C3.  Simple mode.  For a source path with a name, the PDF target is the
    source with its extension replaced by [.pdf], the LaTeX target the source
    with its extension replaced by [.tex], and there is no convenience
    directory.  A [pdf-only] build of [/tmp/x.md] without a repository, on
    every machine: once [/tmp] is there, it starts pandoc exactly once, on
    [/tmp/x.md] with [-o /tmp/x.pdf], and that is all it does; the file
    system it leaves is the one pandoc left, and it returns [True] exactly
    when pandoc returned 0.  No LaTeX stage is run and [copy_to_recent] is
    never called.  When [/tmp] cannot be created the build raises and pandoc
    is not started. *)
Theorem simple_mode_beside_source :
  (forall (resolve : Path -> Path) (source_file : Path),
     name source_file <> "" ->
     get_mirror_paths resolve source_file None
     = Returned
         {| pdf := mkPath (anchored source_file)
                     (removelast (segments source_file)
                      ++ [replace_suffix (name source_file) ".pdf"]);
            tex := mkPath (anchored source_file)
                     (removelast (segments source_file)
                      ++ [replace_suffix (name source_file) ".tex"]);
            recent := None |})
  /\ (forall (os : OS) (w : World),
        let run := build_markdown_outputs os (Path_of "/tmp/x.md")
                     pdf_only None w in
        let made := os_mkdir os (Path_of "/tmp") (fs w) in
        let pandoc := os_run os pandoc_tmp_x None (snd made) in
        Forall (fun e => is_call_copy e = false) (events_since w (snd run))
        /\ Forall (fun e => is_call_tex e = false)
             (events_since w (snd run))
        /\ match fst made with
           | Returned _ =>
               events_since w (snd run) = pdf_only_tmp_x_events
               /\ fs (snd run) = snd pandoc
               /\ (forall rc, fst pandoc = Returned rc ->
                     fst run = Returned (Z.eqb rc 0))
           | Raised e =>
               fst run = Raised e
               /\ events_since w (snd run) = firstn 2 pdf_only_tmp_x_events
               /\ fs (snd run) = snd made
           end).
Proof.
  split.
  - intros resolve source_file Hnm. unfold get_mirror_paths.
    rewrite !(with_suffix_has_name _ _ Hnm) by (reflexivity || discriminate).
    reflexivity.
  - intros os w.
    rewrite (build_with_paths os (Path_of "/tmp/x.md") pdf_only None
               {| pdf := Path_of "/tmp/x.pdf"; tex := Path_of "/tmp/x.tex";
                  recent := None |} w eq_refl).
    cbv zeta.
    unfold run_stages, copy_if_recent, convert_md_to_pdf_direct,
      mkdir_parents, subprocess_run, try_except, bind, log, lift_fs, ret,
      raise, pandoc_tmp_x.
    cbn [pdf tex recent fs trace].
    change (parent (Path_of "/tmp/x.pdf")) with (Path_of "/tmp").
    change (path_str (Path_of "/tmp/x.md")) with "/tmp/x.md".
    change (path_str (Path_of "/tmp/x.pdf")) with "/tmp/x.pdf".
    destruct (os_mkdir os (Path_of "/tmp") (fs w)) as [[[]|e] f1];
      cbn [fst snd fs trace].
    + destruct (os_run os
                  ["pandoc"; "/tmp/x.md"; "--from=markdown"; "--filter";
                   "pandoc-mermaid"; "-o"; "/tmp/x.pdf"] None f1)
        as [[rc|e] f2]; cbn [fst snd];
        [destruct (Z.eqb rc 0) eqn:Hrc|destruct e]; simpl;
        rewrite (events_since_app w _ pdf_only_tmp_x_events)
          by (cbn [trace]; rewrite <- !app_assoc; reflexivity);
        (split; [repeat constructor|]);
        (split; [repeat constructor|]);
        (split; [reflexivity|]);
        (split; [reflexivity|]);
        intros rc' H; try discriminate H; injection H as <-;
        now rewrite Hrc.
    + simpl.
      rewrite (events_since_app w _ (firstn 2 pdf_only_tmp_x_events))
        by (cbn [trace]; rewrite <- !app_assoc; reflexivity).
      repeat split; repeat constructor.
Qed.

(** The scenario of C3 on a machine where pandoc succeeds. *)
Lemma simple_mode_beside_source_witness :
  get_mirror_paths (fun p => p) (Path_of "/tmp/x.md") None
  = Returned {| pdf := Path_of "/tmp/x.pdf"; tex := Path_of "/tmp/x.tex";
                recent := None |}
  /\ (let run := build_markdown_outputs (demo_os all_succeed)
                   (Path_of "/tmp/x.md") pdf_only None tmp_world in
      events_since tmp_world (snd run) = pdf_only_tmp_x_events
      /\ fst run = Returned true
      /\ path_exists (fs (snd run)) (Path_of "/tmp/x.pdf") = true
      /\ path_exists (fs (snd run)) (Path_of "/tmp/x.tex") = false).
Proof.
  split.
  - refine (proj1 simple_mode_beside_source (fun p => p)
              (Path_of "/tmp/x.md") _).
    discriminate.
  - pose proof (proj2 simple_mode_beside_source (demo_os all_succeed)
                  tmp_world) as H.
    cbv zeta in H |- *. destruct H as (_ & _ & H).
    change (fst (os_mkdir (demo_os all_succeed) (Path_of "/tmp")
                   (fs tmp_world))) with (Returned tt) in H.
    cbv iota in H. destruct H as (Hev & Hfs & Hrc).
    split; [exact Hev|]. split; [exact (Hrc 0%Z eq_refl)|].
    rewrite Hfs. split; reflexivity.
Defined.

Example pdf_only_tmp_x_run :
  let run := build_markdown_outputs (demo_os all_succeed) (Path_of "/tmp/x.md")
               pdf_only None
               (mkWorld (add_file (Path_of "/tmp/x.md") (fun _ => None)) []) in
  fst run = Returned true
  /\ trace (snd run) = pdf_only_tmp_x_events
  /\ map (path_exists (fs (snd run)))
       [Path_of "/tmp/x.pdf"; Path_of "/tmp/x.tex"] = [true; false].
Proof. vm_compute. auto. Qed.

(** ** Command line *)

(** C9, as stated, fails: the dependency check comes before the test of the
    flags and starts four [which] processes. *)
Lemma exclusive_flags_run_which :
  events_since demo_world
    (snd (main (demo_os all_succeed) (both_flags false) demo_world))
  = [Subprocess_run ["which"; "pandoc"] None;
     Subprocess_run ["which"; "pandoc-mermaid"] None;
     Subprocess_run ["which"; "latexmk"] None;
     Subprocess_run ["which"; "mmdc"] None]
  /\ ~ exits_1_without_process (demo_os all_succeed) (both_flags false)
         demo_world.
Proof.
  split; [reflexivity|].
  intros [_ H]. vm_compute in H. inversion H as [|e evs He _]. discriminate.
Qed.

(** with [--check-deps] the flags are not looked at *)
Example exclusive_flags_check_deps :
  exit_code (fst (main (demo_os all_succeed) (both_flags true) demo_world))
  = 0%Z.
Proof. reflexivity. Qed.

(** C9, amended.  With an existing regular input file, both [--pdf-only] and
    [--tex-only] set and [--check-deps] not set, the exit code is 1 and the
    only processes started are the [which] probes of the dependency check:
    no converter, no compiler, no stage of the pipeline. *)
Theorem exclusive_flags_exit_1 (os : OS) (args : Args) (w : World)
  (input : Path) :
  arg_input args = Some input ->
  path_is_file (fs w) (os_resolve os input) = true ->
  arg_pdf_only args = true ->
  arg_tex_only args = true ->
  arg_check_deps args = false ->
  exit_code (fst (main os args w)) = 1%Z
  /\ exists evs,
       trace (snd (main os args w)) = (trace w ++ evs)%list
       /\ Forall (fun e => which_probe_event e = true) evs.
Proof.
  intros Hin Hfile Hpdf Htex Hcheck.
  assert (Hex : path_exists (fs w) (os_resolve os input) = true).
  { unfold path_is_file in Hfile. unfold path_exists.
    now destruct (fs w (os_resolve os input)). }
  assert (Hmain : main os args w
                  = bind (check_dependencies os) (fun _ => ret 1%Z) w).
  { unfold main. rewrite Hcheck, Hin, Hpdf, Htex.
    unfold bind at 1, read_fs at 1. rewrite Hex. cbn [negb].
    unfold bind at 1, read_fs at 1. rewrite Hfile. cbn [negb andb].
    unfold bind. destruct (check_dependencies os w) as [[r|e] w1];
      [|reflexivity].
    now destruct (negb (fst r)). }
  rewrite Hmain. split.
  - unfold bind. now destruct (check_dependencies os w) as [[r|e] w1].
  - assert (E : emits (fun e => which_probe_event e = true)
                  (bind (check_dependencies os) (fun _ => ret 1%Z))).
    { apply emits_bind; [apply emits_check_dependencies|].
      intros _; apply emits_ret. }
    exact (E w).
Qed.

Lemma exclusive_flags_exit_1_witness :
  exit_code (fst (main (demo_os all_succeed) (both_flags false) demo_world))
  = 1%Z.
Proof.
  refine (proj1 (exclusive_flags_exit_1 (demo_os all_succeed)
                   (both_flags false) demo_world (Path_of "notes/plan.md")
                   eq_refl eq_refl eq_refl eq_refl eq_refl)).
Defined.

(** * Further properties of the code *)

(** ** Source type *)

Lemma substring_split (s : string) :
  forall i, i <= String.length s ->
    s = substring 0 i s ++ substring i (String.length s - i) s.
Proof.
  induction s as [|c r IH]; intros i Hi; simpl in *.
  - now destruct i.
  - destruct i as [|i]; simpl.
    + now rewrite substring_all.
    + f_equal. apply IH. lia.
Qed.

Lemma suffix_of_ext (stem ext : string) :
  stem <> "" -> ext <> "" -> has_dot ext = false ->
  suffix_of (stem ++ String "." ext) = String "." ext.
Proof.
  intros Hstem Hext Hdot.
  unfold suffix_of. rewrite (rfind_dot_app _ _ Hdot), length_append.
  assert (0 < String.length stem) by (destruct stem; simpl; [congruence|lia]).
  assert (0 < String.length ext) by (destruct ext; simpl; [congruence|lia]).
  simpl String.length.
  replace (Nat.ltb 0 (String.length stem)) with true
    by (symmetry; apply Nat.ltb_lt; lia).
  replace (Nat.ltb (String.length stem)
             (String.length stem + S (String.length ext) - 1)) with true
    by (symmetry; apply Nat.ltb_lt; lia).
  simpl andb. cbv iota.
  replace (String.length stem + S (String.length ext) - String.length stem)
    with (String.length (String "." ext)) by (simpl; lia).
  apply substring_app_right.
Qed.

(** a name with a suffix is a non-empty stem followed by that suffix *)
Lemma suffix_of_stem (nm : string) :
  suffix_of nm <> "" ->
  exists stem, stem <> "" /\ nm = stem ++ suffix_of nm.
Proof.
  unfold suffix_of. destruct (rfind_dot nm) as [i|]; [|now intros H; elim H].
  destruct (Nat.ltb 0 i && Nat.ltb i (String.length nm - 1))%bool eqn:Hi;
    [|now intros H; elim H].
  intros _. apply andb_true_iff in Hi as [H0 H1].
  apply Nat.ltb_lt in H0, H1.
  exists (substring 0 i nm). split.
  - intros E.
    assert (Hlen : String.length (substring 0 i nm) = i)
      by (apply length_substring; lia).
    rewrite E in Hlen. simpl in Hlen. lia.
  - apply substring_split. lia.
Qed.

(** X1.  [determine_source_type] accepts exactly the paths whose name is a
    non-empty stem followed by [.md]; it raises NotImplementedError exactly
    on a non-empty stem followed by [.tex], and ValueError on every other
    path.  A name that is only an extension, such as [.md], is refused. *)
Theorem determine_source_type_by_name (file_path : Path) :
  (determine_source_type file_path = Returned markdown
   <-> exists stem, stem <> "" /\ name file_path = stem ++ ".md")
  /\ (determine_source_type file_path = Raised NotImplementedError
      <-> exists stem, stem <> "" /\ name file_path = stem ++ ".tex")
  /\ (determine_source_type file_path = Raised ValueError
      <-> ~ (exists stem, stem <> ""
               /\ (name file_path = stem ++ ".md"
                   \/ name file_path = stem ++ ".tex"))).
Proof.
  assert (Hfrom : forall ext, ext <> "" ->
            suffix file_path = String "." ext ->
            exists stem, stem <> "" /\ name file_path = stem ++ String "." ext).
  { intros ext Hext Hs. unfold suffix in Hs.
    destruct (suffix_of_stem (name file_path)) as (stem & Hstem & Hnm);
      [rewrite Hs; discriminate|].
    exists stem. split; [assumption|]. now rewrite <- Hs. }
  assert (Hto : forall stem ext, stem <> "" -> ext <> "" ->
            has_dot ext = false ->
            name file_path = stem ++ String "." ext ->
            suffix file_path = String "." ext).
  { intros stem ext Hstem Hext Hdot Hnm. unfold suffix. rewrite Hnm.
    now apply suffix_of_ext. }
  unfold determine_source_type.
  destruct (String.eqb (suffix file_path) ".md") eqn:Emd.
  - apply String.eqb_eq in Emd.
    destruct (Hfrom "md" ltac:(discriminate) Emd) as (stem & Hstem & Hnm).
    repeat split; try discriminate; eauto.
    + intros (stem' & Hstem' & Hnm').
      rewrite (Hto stem' "tex" Hstem' ltac:(discriminate) eq_refl Hnm') in Emd.
      discriminate.
    + intros H. elim H. eauto.
  - apply String.eqb_neq in Emd.
    destruct (String.eqb (suffix file_path) ".tex") eqn:Etex.
    + apply String.eqb_eq in Etex.
      destruct (Hfrom "tex" ltac:(discriminate) Etex) as (stem & Hstem & Hnm).
      repeat split; try discriminate; eauto.
      * intros (stem' & Hstem' & Hnm'). elim Emd.
        now apply (Hto stem' "md").
      * intros H. elim H. eauto.
    + apply String.eqb_neq in Etex.
      repeat split; try discriminate.
      * intros (stem' & Hstem' & Hnm'). elim Emd. now apply (Hto stem' "md").
      * intros (stem' & Hstem' & Hnm'). elim Etex. now apply (Hto stem' "tex").
      * intros _ (stem' & Hstem' & [Hnm'|Hnm']).
        -- elim Emd. now apply (Hto stem' "md").
        -- elim Etex. now apply (Hto stem' "tex").
Qed.

Example determine_source_type_hidden :
  determine_source_type (Path_of "/notes/.md") = Raised ValueError.
Proof. reflexivity. Qed.

(** ** Resolver: names of the targets and failure *)

Lemma with_suffix_inv (p q : Path) (sfx : string) :
  with_suffix p sfx = Returned q ->
  name p <> ""
  /\ q = mkPath (anchored p)
           (removelast (segments p) ++ [replace_suffix (name p) sfx]).
Proof.
  unfold with_suffix.
  destruct (has_slash sfx); [discriminate|].
  destruct ((negb (String.eqb sfx "") && negb (starts_with_dot sfx))
            || String.eqb sfx ".")%bool; [discriminate|].
  destruct (String.eqb (name p) "") eqn:E; [discriminate|].
  apply String.eqb_neq in E. now intros [= <-].
Qed.

Lemma with_suffix_no_name (p : Path) (sfx : string) :
  name p = "" -> exists e, with_suffix p sfx = Raised e.
Proof.
  intros Hn. unfold with_suffix. rewrite Hn. simpl.
  destruct (has_slash sfx); [eauto|].
  destruct ((negb (String.eqb sfx "") && negb (starts_with_dot sfx))
            || String.eqb sfx ".")%bool; eauto.
Qed.

Lemma name_joinpath_snoc (a : Path) (b : bool) (l : list string) (x : string) :
  name (joinpath a (mkPath b (l ++ [x]))) = x.
Proof.
  unfold joinpath, name; simpl. destruct b; simpl.
  - apply last_last.
  - rewrite app_assoc. apply last_last.
Qed.

Lemma name_snoc (b : bool) (l : list string) (x : string) :
  name (mkPath b (l ++ [x])) = x.
Proof. unfold name; simpl. apply last_last. Qed.

(** X2.  Whenever the resolver returns, in either mode, the two targets
    have the same non-empty stem, the PDF target has the suffix [.pdf] and
    the LaTeX target the suffix [.tex]. *)
Theorem mirror_targets_share_stem (resolve : Path -> Path)
  (source_file : Path) (repo_root : option Path) (paths : MirrorPaths) :
  get_mirror_paths resolve source_file repo_root = Returned paths ->
  exists stem,
    stem <> ""
    /\ name (pdf paths) = stem ++ ".pdf"
    /\ name (tex paths) = stem ++ ".tex"
    /\ suffix (pdf paths) = ".pdf"
    /\ suffix (tex paths) = ".tex".
Proof.
  intros H.
  assert (Hgen : exists nm, nm <> ""
                   /\ name (pdf paths) = replace_suffix nm ".pdf"
                   /\ name (tex paths) = replace_suffix nm ".tex").
  { unfold get_mirror_paths in H. destruct repo_root as [root|].
    - set (rel := get_relative_path_from_root resolve source_file root) in *.
      destruct (with_suffix rel ".pdf") as [qp|] eqn:Ep; [|discriminate].
      destruct (with_suffix rel ".tex") as [qt|] eqn:Et; [|discriminate].
      apply with_suffix_inv in Ep as [Hn ->], Et as [_ ->].
      injection H as <-. exists (name rel). simpl.
      now rewrite !name_joinpath_snoc.
    - destruct (with_suffix source_file ".pdf") as [qp|] eqn:Ep; [|discriminate].
      destruct (with_suffix source_file ".tex") as [qt|] eqn:Et; [|discriminate].
      apply with_suffix_inv in Ep as [Hn ->], Et as [_ ->].
      injection H as <-. exists (name source_file). simpl.
      now rewrite !name_snoc. }
  destruct Hgen as (nm & Hnm & Hp & Ht).
  destruct (replace_suffix_stem nm Hnm) as (stem & Hstem & Hrep).
  exists stem. rewrite Hrep in Hp, Ht.
  repeat split; try assumption.
  - unfold suffix. rewrite Hp. now apply (suffix_of_ext stem "pdf").
  - unfold suffix. rewrite Ht. now apply (suffix_of_ext stem "tex").
Qed.

Lemma mirror_targets_share_stem_witness :
  exists stem,
    stem <> ""
    /\ name (pdf demo_paths) = stem ++ ".pdf"
    /\ name (tex demo_paths) = stem ++ ".tex"
    /\ suffix (pdf demo_paths) = ".pdf"
    /\ suffix (tex demo_paths) = ".tex".
Proof.
  apply (mirror_targets_share_stem (lexical_resolve (Path_of "/repo"))
           (Path_of "notes/plan.md") (Some (Path_of "/repo")) demo_paths).
  reflexivity.
Defined.

Lemma mirror_paths_simple_no_name (resolve : Path -> Path)
  (source_file : Path) :
  name source_file = "" ->
  get_mirror_paths resolve source_file None = Raised ValueError.
Proof. intros Hn. unfold get_mirror_paths, with_suffix. now rewrite Hn. Qed.

Lemma mirror_paths_repo_no_name (resolve : Path -> Path)
  (source_file repo_root : Path) (rel : list string) :
  resolve source_file = joinpath (resolve repo_root) (mkPath false rel) ->
  rel = [] \/ (exists s, rel = [s] /\ is_special_folder s = true) ->
  get_mirror_paths resolve source_file (Some repo_root) = Raised ValueError.
Proof.
  intros Hunder Hrel. unfold get_mirror_paths.
  rewrite (relative_path_under_root _ _ _ _ Hunder).
  assert (Hs : strip_special rel = []).
  { destruct Hrel as [->|(s & -> & Hsp)]; [reflexivity|].
    simpl. now rewrite Hsp. }
  now rewrite Hs.
Qed.

(** X3.  The resolver raises when there is no file name to give a suffix to:
    in simple mode on a path without a name, and in repository mode when the
    resolved source is the root itself or an entry named PDF, TEX or recent
    directly below the root. *)
Theorem mirror_paths_without_name (resolve : Path -> Path)
  (source_file : Path) :
  (name source_file = "" ->
   get_mirror_paths resolve source_file None = Raised ValueError)
  /\ (forall repo_root rel,
        resolve source_file = joinpath (resolve repo_root) (mkPath false rel) ->
        rel = [] \/ (exists s, rel = [s] /\ is_special_folder s = true) ->
        get_mirror_paths resolve source_file (Some repo_root)
        = Raised ValueError).
Proof.
  split.
  - apply mirror_paths_simple_no_name.
  - intros repo_root rel. apply mirror_paths_repo_no_name.
Qed.

Lemma mirror_paths_without_name_witness :
  get_mirror_paths (fun p => p) (Path_of "/") None = Raised ValueError
  /\ get_mirror_paths (fun p => p) (Path_of "/repo/PDF")
       (Some (Path_of "/repo")) = Raised ValueError.
Proof.
  destruct (mirror_paths_without_name (fun p => p) (Path_of "/")) as [H1 _].
  destruct (mirror_paths_without_name (fun p => p) (Path_of "/repo/PDF"))
    as [_ H2].
  split.
  - apply H1. reflexivity.
  - apply (H2 (Path_of "/repo") ["PDF"]); [reflexivity|].
    right. exists "PDF". split; reflexivity.
Defined.

(** X4.  A build whose source is the repository root or one of its output
    folders raises ValueError before any stage, in every mode and on every
    machine: no directory is created, no tool is started, the world is
    unchanged. *)
Theorem build_on_output_folder_raises (os : OS) (source_file repo_root : Path)
  (rel : list string) (mode : Mode) (w : World) :
  os_resolve os source_file
  = joinpath (os_resolve os repo_root) (mkPath false rel) ->
  rel = [] \/ (exists s, rel = [s] /\ is_special_folder s = true) ->
  build_markdown_outputs os source_file mode (Some repo_root) w
  = (Raised ValueError, w).
Proof.
  intros Hunder Hrel. unfold build_markdown_outputs, bind, lift_outcome.
  now rewrite (mirror_paths_repo_no_name _ _ _ _ Hunder Hrel).
Qed.

Lemma build_on_output_folder_raises_witness :
  build_markdown_outputs (demo_os all_succeed) (Path_of "/repo/recent") both
    (Some (Path_of "/repo")) demo_world
  = (Raised ValueError, demo_world).
Proof.
  apply (build_on_output_folder_raises (demo_os all_succeed)
           (Path_of "/repo/recent") (Path_of "/repo") ["recent"] both
           demo_world).
  - reflexivity.
  - right. exists "recent". split; reflexivity.
Defined.

(** X5.  Resolving the targets themselves gives the same targets again, as
    long as the output folders are plain directories of the root. *)
Theorem resolution_fixed_on_targets (resolve : Path -> Path)
  (source_file repo_root : Path) (rel dir : list string) (nm : string)
  (paths : MirrorPaths) :
  resolve source_file = joinpath (resolve repo_root) (mkPath false rel) ->
  strip_special rel = (dir ++ [nm])%list ->
  nm <> "" ->
  get_mirror_paths resolve source_file (Some repo_root) = Returned paths ->
  resolve (tex paths)
  = joinpath (resolve repo_root)
      (mkPath false ("TEX" :: dir ++ [replace_suffix nm ".tex"])) ->
  resolve (pdf paths)
  = joinpath (resolve repo_root)
      (mkPath false ("PDF" :: dir ++ [replace_suffix nm ".pdf"])) ->
  get_mirror_paths resolve (tex paths) (Some repo_root) = Returned paths
  /\ get_mirror_paths resolve (pdf paths) (Some repo_root) = Returned paths.
Proof. apply resolving_outputs_again. Qed.

Lemma resolution_fixed_on_targets_witness :
  get_mirror_paths (fun p => p) (tex demo_paths) (Some (Path_of "/repo"))
  = Returned demo_paths
  /\ get_mirror_paths (fun p => p) (pdf demo_paths) (Some (Path_of "/repo"))
     = Returned demo_paths.
Proof.
  apply (resolution_fixed_on_targets (fun p => p)
           (Path_of "/repo/notes/plan.md") (Path_of "/repo")
           ["notes"; "plan.md"] ["notes"] "plan.md" demo_paths);
    try reflexivity.
  discriminate.
Defined.

(** ** Locator and resolver together *)

Lemma strip_prefix_firstn (n : nat) (l : list string) :
  strip_prefix (firstn n l) l = Some (skipn n l).
Proof.
  rewrite <- (firstn_skipn n l) at 2. apply strip_prefix_app.
Qed.

Lemma nth_parent_is_prefix (k : nat) (p : Path) :
  p = joinpath (nth_parent k p)
        (mkPath false
           (skipn (List.length (segments p) - k) (segments p))).
Proof.
  rewrite nth_parent_segments. destruct p as [a segs].
  unfold joinpath; simpl. now rewrite firstn_skipn.
Qed.

(** X6.  A root the locator returns is the resolved start or one of its
    ancestors, so the resolved start is relative to it; it has at least one
    component (it is never the top of the walk) and it holds a marker. *)
Theorem find_repo_root_contains_start (resolve : Path -> Path) (f : FS)
  (start_path d : Path) :
  find_repo_root resolve f start_path = Some d ->
  is_relative_to (resolve start_path) d = true
  /\ segments d <> []
  /\ anchored d = anchored (resolve start_path)
  /\ has_marker f d = true.
Proof.
  intros H. unfold find_repo_root in H.
  pose proof (find_repo_root_loop_spec f (resolve start_path)) as Hspec.
  rewrite H in Hspec. destruct Hspec as (k & Hd & Hne & Hm & _).
  repeat split; try assumption.
  - rewrite (nth_parent_is_prefix k (resolve start_path)) at 1.
    rewrite <- Hd. unfold is_relative_to.
    now rewrite relative_to_joinpath.
  - intros E. apply Hne. destruct d as [a segs]; simpl in E; subst segs.
    reflexivity.
  - rewrite Hd, nth_parent_segments. reflexivity.
Qed.

Lemma find_repo_root_contains_start_witness :
  is_relative_to (Path_of "/repo/notes") (Path_of "/repo") = true
  /\ segments (Path_of "/repo") <> []
  /\ anchored (Path_of "/repo") = anchored (Path_of "/repo/notes")
  /\ has_marker (fs demo_world) (Path_of "/repo") = true.
Proof.
  apply (find_repo_root_contains_start (lexical_resolve (Path_of "/repo"))
           (fs demo_world) (Path_of "/repo/notes") (Path_of "/repo")).
  reflexivity.
Defined.

(** X7.  With a root found by the locator from the directory of the input
    (as [main] does without [--repo-root]), the input lies below the root:
    the resolver takes the relative path and never the fallback.  The paths
    involved are resolved already, as those of [main] are. *)
Theorem located_root_contains_input (resolve : Path -> Path) (f : FS)
  (input_file repo_root : Path) :
  resolve input_file = input_file ->
  resolve (parent input_file) = parent input_file ->
  resolve repo_root = repo_root ->
  find_repo_root resolve f (parent input_file) = Some repo_root ->
  exists rel,
    input_file = joinpath repo_root (mkPath false rel)
    /\ is_relative_to (resolve input_file) (resolve repo_root) = true
    /\ get_relative_path_from_root resolve input_file repo_root
       = match strip_special rel with
         | [] => Path_of "."
         | _ => mkPath false (strip_special rel)
         end.
Proof.
  intros Hin Hpar Hroot Hfind.
  unfold find_repo_root in Hfind. rewrite Hpar in Hfind.
  pose proof (find_repo_root_loop_spec f (parent input_file)) as Hspec.
  rewrite Hfind in Hspec. destruct Hspec as (k & Hd & _).
  pose proof (nth_parent_is_prefix (S k) input_file) as Hpre.
  simpl nth_parent in Hpre. rewrite <- Hd in Hpre.
  eexists. split; [exact Hpre|].
  assert (Hunder : resolve input_file
                   = joinpath (resolve repo_root)
                       (mkPath false
                          (skipn (List.length (segments input_file) - S k)
                             (segments input_file))))
    by (now rewrite Hin, Hroot).
  split.
  - rewrite Hunder. unfold is_relative_to. now rewrite relative_to_joinpath.
  - now apply relative_path_under_root.
Qed.

Lemma located_root_contains_input_witness :
  exists rel,
    Path_of "/repo/notes/plan.md" = joinpath (Path_of "/repo") (mkPath false rel)
    /\ is_relative_to (Path_of "/repo/notes/plan.md") (Path_of "/repo") = true
    /\ get_relative_path_from_root (lexical_resolve (Path_of "/repo"))
         (Path_of "/repo/notes/plan.md") (Path_of "/repo")
       = match strip_special rel with
         | [] => Path_of "."
         | _ => mkPath false (strip_special rel)
         end.
Proof.
  apply (located_root_contains_input (lexical_resolve (Path_of "/repo"))
           (fs demo_world) (Path_of "/repo/notes/plan.md") (Path_of "/repo"));
    reflexivity.
Defined.

(** ** Convenience copy: where the copy goes *)

Lemma split_on_no_sep (s : string) :
  has_slash s = false -> split_on "/" s = [s].
Proof.
  induction s as [|c r IH]; simpl; [reflexivity|].
  intros H. apply orb_false_iff in H as [Hc Hr].
  now rewrite Hc, (IH Hr).
Qed.

(** a plain component parses to itself *)
Lemma Path_of_component (s : string) :
  has_slash s = false -> s <> "" -> s <> "." ->
  Path_of s = mkPath false [s].
Proof.
  intros Hs He Hd. unfold Path_of. rewrite (split_on_no_sep _ Hs). simpl.
  apply String.eqb_neq in He, Hd. rewrite He, Hd. simpl. f_equal.
  destruct s as [|c r]; [reflexivity|]. simpl in *.
  now apply orb_false_iff in Hs as [-> _].
Qed.

Lemma joinstr_component (d : Path) (s : string) :
  has_slash s = false -> s <> "" -> s <> "." ->
  d // s = mkPath (anchored d) (segments d ++ [s]).
Proof.
  intros Hs He Hd. unfold joinstr. now rewrite (Path_of_component _ Hs He Hd).
Qed.

(** X8.  For a source file that exists, [copy_to_recent] creates the
    convenience directory and then copies to that directory followed by the
    bare file name: the copy is flat, whatever directory the source is in.
    It does nothing else, and when the directory cannot be created no copy
    is attempted. *)
Theorem copy_to_recent_is_flat (os : OS) (source_file recent_dir : Path)
  (file_type : string) (w : World) :
  path_exists (fs w) source_file = true ->
  has_slash (name source_file) = false ->
  name source_file <> "" ->
  name source_file <> "." ->
  let call := Call_copy_to_recent source_file recent_dir file_type in
  let copy := Shutil_copy source_file
                (mkPath (anchored recent_dir)
                   (segments recent_dir ++ [name source_file])) in
  let run := copy_to_recent os source_file recent_dir file_type w in
  match fst (os_mkdir os recent_dir (fs w)) with
  | Returned _ =>
      trace (snd run) = (trace w ++ [call; Mkdir recent_dir; copy])%list
  | Raised e =>
      trace (snd run) = (trace w ++ [call; Mkdir recent_dir])%list
      /\ fst run = Raised e
  end.
Proof.
  intros Hex Hs He Hd call copy run. subst run call copy.
  unfold copy_to_recent, mkdir_parents, shutil_copy, bind, log, read_fs,
    lift_fs; simpl.
  rewrite Hex. simpl.
  rewrite (joinstr_component recent_dir _ Hs He Hd).
  destruct (os_mkdir os recent_dir (fs w)) as [[[]|e] f1]; simpl.
  - destruct (os_copy os source_file _ f1) as [r f2]; simpl.
    now rewrite <- !app_assoc.
  - split; [now rewrite <- !app_assoc|reflexivity].
Qed.

Lemma copy_to_recent_is_flat_witness :
  trace (snd (copy_to_recent (demo_os all_succeed)
                (Path_of "/repo/notes/plan.md") (Path_of "/repo/recent")
                "tex" demo_world))
  = [Call_copy_to_recent (Path_of "/repo/notes/plan.md")
       (Path_of "/repo/recent") "tex";
     Mkdir (Path_of "/repo/recent");
     Shutil_copy (Path_of "/repo/notes/plan.md")
       (Path_of "/repo/recent/plan.md")].
Proof.
  refine (copy_to_recent_is_flat (demo_os all_succeed)
            (Path_of "/repo/notes/plan.md") (Path_of "/repo/recent") "tex"
            demo_world eq_refl eq_refl _ _); discriminate.
Defined.

(** ** The compile stage, event by event *)

Ltac trace_done :=
  eexists; split; [rewrite <- ?app_assoc; simpl; reflexivity|];
  split; [repeat (apply Forall_cons || apply Forall_nil);
          simpl; repeat split; auto 10|];
  split; [let H := fresh in let Hm := fresh in
          intros H Hm; try discriminate H;
          first [ solve [repeat (apply Forall_cons || apply Forall_nil);
                         reflexivity]
                | exfalso;
                  match goal with
                  | E : os_move _ ?a ?b ?f = _ |- _ =>
                      apply (Hm a b f CalledProcessError);
                      [rewrite E; reflexivity|reflexivity]
                  end ]
         |let H := fresh in intros H; try discriminate H;
          eexists; simpl; eauto 10].

Ltac oracle_step os :=
  match goal with
  | |- context [os_copy os ?a ?b ?f] =>
      destruct (os_copy os a b f) as [[[]|?] ?]; simpl
  | |- context [path_exists ?f ?p] =>
      destruct (path_exists f p); simpl
  | |- context [os_copytree os ?a ?b ?f] =>
      destruct (os_copytree os a b f) as [[[]|?] ?]; simpl
  | |- context [os_run os ?a ?b ?f] =>
      destruct (os_run os a b f) as [[?|?] ?]; simpl
  | |- context [Z.eqb ?rc 0] =>
      destruct (Z.eqb rc 0); simpl
  | |- context [with_suffix ?p ?s] =>
      destruct (with_suffix p s) as [?|?]; simpl
  | |- context [os_move os ?a ?b ?f] =>
      let E := fresh "Emove" in
      destruct (os_move os a b f) as [[[]|?] ?] eqn:E; simpl
  | |- context [match ?e with CalledProcessError => _ | _ => _ end] =>
      destruct e; simpl
  end.

(** the body of the [with] block in the directory [d] *)
Lemma compile_in_tmpdir_trace (os : OS) (tex_file output_pdf d : Path)
  (w : World) :
  let r := compile_in_tmpdir os tex_file output_pdf d w in
  exists evs,
    trace (snd r) = (trace w ++ evs)%list
    /\ Forall (in_tmpdir_event d output_pdf) evs
    /\ (fst r = Returned false -> move_errors_are_os_errors os ->
        Forall (fun e => is_move e = false) evs)
    /\ (fst r = Returned true ->
        exists src, In (Shutil_move src output_pdf) evs).
Proof.
  intros r. subst r.
  unfold compile_in_tmpdir, shutil_copy, shutil_copytree, shutil_move,
    subprocess_run, try_except, bind, log, read_fs, lift_fs, lift_outcome,
    ret, raise; simpl.
  repeat oracle_step os; trace_done.
Qed.

(** the whole stage: either it stops before a temporary directory exists,
    or its events are the two opening ones, the entry into a directory [d],
    the events of the block and, last, the removal of [d] *)
Lemma compile_trace_shape (os : OS) (tex_file output_pdf : Path) (w : World) :
  let r := compile_tex_to_pdf os tex_file output_pdf w in
  let started := [Call_compile_tex_to_pdf tex_file output_pdf;
                  Mkdir (parent output_pdf)] in
  (trace (snd r) = (trace w ++ started)%list /\ exists e, fst r = Raised e)
  \/ exists d body,
       trace (snd r)
       = (trace w ++ started ++ TemporaryDirectory_enter d :: body
          ++ [TemporaryDirectory_cleanup d])%list
       /\ Forall (in_tmpdir_event d output_pdf) body
       /\ (fst r = Returned false -> move_errors_are_os_errors os ->
           Forall (fun e => is_move e = false) body)
       /\ (fst r = Returned true ->
           exists src, In (Shutil_move src output_pdf) body).
Proof.
  intros r started. subst r. rewrite compile_tex_to_pdf_steps. cbv zeta.
  destruct (os_mkdir os (parent output_pdf) (fs w)) as [[[]|e] f1].
  - unfold with_TemporaryDirectory. cbn [fs trace].
    destruct (os_mkdtemp os f1) as [d|e].
    + right.
      match goal with
      | |- context [compile_in_tmpdir os tex_file output_pdf d ?w1] =>
          destruct (compile_in_tmpdir_trace os tex_file output_pdf d w1)
            as (body & Htr & Hall & Hfalse & Htrue);
          destruct (compile_in_tmpdir os tex_file output_pdf d w1) as [r w2]
      end.
      cbn [fst snd trace] in *.
      exists d, body. split; [|split; [|split]]; try assumption.
      rewrite Htr. subst started. rewrite <- !app_assoc. reflexivity.
    + left. split; [reflexivity|]. exists e. reflexivity.
  - left. split; [reflexivity|]. exists e. reflexivity.
Qed.

(** X9.  The compile stage starts no process other than [latexmk], and
    starts it inside the temporary directory: working directory and output
    directory are the directory just created, never the directory of the
    caller.  Nothing happens after the removal of that directory, and the
    only move made goes to the final PDF path. *)
Theorem compile_runs_inside_tmpdir (os : OS) (tex_file output_pdf : Path)
  (w : World) :
  let r := compile_tex_to_pdf os tex_file output_pdf w in
  let started := [Call_compile_tex_to_pdf tex_file output_pdf;
                  Mkdir (parent output_pdf)] in
  (events_since w (snd r) = started /\ exists e, fst r = Raised e)
  \/ exists d body,
       events_since w (snd r)
       = (started ++ TemporaryDirectory_enter d :: body
          ++ [TemporaryDirectory_cleanup d])%list
       /\ Forall (in_tmpdir_event d output_pdf) body.
Proof.
  intros r started.
  destruct (compile_trace_shape os tex_file output_pdf w)
    as [[Htr He]|(d & body & Htr & Hall & _)].
  - left. split; [|exact He]. now apply events_since_app.
  - right. exists d, body. split; [|exact Hall]. now apply events_since_app.
Qed.

Example compile_runs_inside_tmpdir_demo :
  events_since demo_world_tex
    (snd (compile_tex_to_pdf (demo_os all_succeed) (tex demo_paths)
            (pdf demo_paths) demo_world_tex))
  = [Call_compile_tex_to_pdf (tex demo_paths) (pdf demo_paths);
     Mkdir (Path_of "/repo/PDF/notes");
     TemporaryDirectory_enter (Path_of "/tmp/tmpq3x7");
     Shutil_copy (tex demo_paths) (Path_of "/tmp/tmpq3x7/plan.tex");
     Subprocess_run
       ["latexmk"; "-xelatex"; "-interaction=nonstopmode";
        "-output-directory=/tmp/tmpq3x7"; "plan.tex"]
       (Some (Path_of "/tmp/tmpq3x7"));
     Shutil_move (Path_of "/tmp/tmpq3x7/plan.pdf") (pdf demo_paths);
     TemporaryDirectory_cleanup (Path_of "/tmp/tmpq3x7")].
Proof. reflexivity. Qed.

(** *** Which file is moved, and when *)

Lemma has_slash_substring (s : string) :
  has_slash s = false -> forall i k, has_slash (substring i k s) = false.
Proof.
  induction s as [|c r IH]; intros H i k; simpl in *.
  - now destruct i, k.
  - apply orb_false_iff in H as [Hc Hr].
    destruct i as [|i].
    + destruct k as [|k]; simpl; [reflexivity|]. now rewrite Hc, IH.
    + now apply IH.
Qed.

Lemma has_slash_append (s t : string) :
  has_slash (s ++ t) = (has_slash s || has_slash t)%bool.
Proof.
  induction s as [|c r IH]; simpl; [reflexivity|].
  now rewrite IH, orb_assoc.
Qed.

(** the name [with_suffix] gives to a plain name is plain again *)
Lemma replace_suffix_plain (nm : string) :
  has_slash nm = false -> nm <> "" ->
  has_slash (replace_suffix nm ".pdf") = false
  /\ replace_suffix nm ".pdf" <> ""
  /\ replace_suffix nm ".pdf" <> ".".
Proof.
  intros Hs Hnm.
  destruct (replace_suffix_stem nm Hnm) as (stem & Hstem & Hrep).
  assert (Hlen : 2 <= String.length (replace_suffix nm ".pdf")).
  { rewrite Hrep, length_append. simpl. lia. }
  split; [|split].
  - unfold replace_suffix.
    destruct (String.eqb (suffix_of nm) ""); rewrite has_slash_append.
    + now rewrite Hs.
    + now rewrite (has_slash_substring nm Hs).
  - intros E. rewrite E in Hlen. simpl in Hlen. lia.
  - intros E. rewrite E in Hlen. simpl in Hlen. lia.
Qed.

(** the file the compile stage moves, for a LaTeX file with a plain name:
    in the temporary directory, the name of the LaTeX file with [.pdf] *)
Lemma produced_pdf_path (d renamed : Path) (nm : string) :
  has_slash nm = false -> nm <> "" -> nm <> "." ->
  with_suffix (d // nm) ".pdf" = Returned renamed ->
  d // name renamed
  = mkPath (anchored d) (segments d ++ [replace_suffix nm ".pdf"]).
Proof.
  intros Hs He Hd Hw.
  rewrite (joinstr_component d nm Hs He Hd) in Hw.
  rewrite (with_suffix_pdf _ _ _ He) in Hw. injection Hw as <-.
  rewrite name_snoc.
  destruct (replace_suffix_plain nm Hs He) as (Hs' & He' & Hd').
  now apply joinstr_component.
Qed.

Ltac moves_step os :=
  match goal with
  | |- context [os_copy os ?a ?b ?f] =>
      destruct (os_copy os a b f) as [[[]|?] ?]; simpl
  | |- context [path_exists ?f ?p] =>
      destruct (path_exists f p); simpl
  | |- context [os_copytree os ?a ?b ?f] =>
      destruct (os_copytree os a b f) as [[[]|?] ?]; simpl
  | |- context [os_run os ?a ?b ?f] =>
      destruct (os_run os a b f) as [[?|?] ?]; simpl
  | |- context [Z.eqb ?rc 0] =>
      destruct (Z.eqb rc 0); simpl
  | |- context [with_suffix ?p ?s] =>
      let E := fresh "Esuffix" in
      destruct (with_suffix p s) as [?|?] eqn:E; simpl
  | |- context [os_move os ?a ?b ?f] =>
      let E := fresh "Emove" in
      destruct (os_move os a b f) as [[[]|?] ?] eqn:E; simpl
  | |- context [match ?e with CalledProcessError => _ | _ => _ end] =>
      destruct e; simpl
  end.

Ltac moves_done :=
  eexists; split; [rewrite <- ?app_assoc; simpl; reflexivity|];
  split;
    [let H := fresh in
     intros H;
     first [ discriminate H
           | eexists; split; reflexivity ]|];
  split;
    [let H := fresh in let Hm := fresh in
     intros H Hm;
     first [ discriminate H
           | reflexivity
           | exfalso;
             match goal with
             | E : os_move _ ?a ?b ?f = _ |- _ =>
                 apply (Hm a b f CalledProcessError);
                 [rewrite E; reflexivity|reflexivity]
             end ]|];
  let e' := fresh in let H := fresh in
  intros e' H;
  first [ discriminate H
        | injection H as <-;
          first [ left; reflexivity
                | right;
                  match goal with
                  | E : os_move _ ?a ?b ?f = _ |- _ =>
                      exists a, f; split;
                      first [ rewrite E; reflexivity | simpl; auto 10 ]
                  end ] ].

(** the moves of the body of the [with] block in the directory [d] *)
Lemma compile_in_tmpdir_moves (os : OS) (tex_file output_pdf d : Path)
  (w : World) :
  let r := compile_in_tmpdir os tex_file output_pdf d w in
  exists evs,
    trace (snd r) = (trace w ++ evs)%list
    /\ (fst r = Returned true ->
        exists renamed,
          with_suffix (d // name tex_file) ".pdf" = Returned renamed
          /\ filter is_move evs
             = [Shutil_move (d // name renamed) output_pdf])
    /\ (fst r = Returned false -> move_errors_are_os_errors os ->
        filter is_move evs = [])
    /\ (forall e, fst r = Raised e ->
          filter is_move evs = []
          \/ exists src f,
               In (Shutil_move src output_pdf) evs
               /\ fst (os_move os src output_pdf f) = Raised e).
Proof.
  intros r. subst r.
  unfold compile_in_tmpdir, shutil_copy, shutil_copytree, shutil_move,
    subprocess_run, try_except, bind, log, read_fs, lift_fs, lift_outcome,
    ret, raise; simpl.
  repeat moves_step os; moves_done.
Qed.

Lemma filter_is_move_bracket (tex_file output_pdf d : Path)
  (body : list Event) :
  filter is_move
    ([Call_compile_tex_to_pdf tex_file output_pdf; Mkdir (parent output_pdf)]
     ++ TemporaryDirectory_enter d :: body
     ++ [TemporaryDirectory_cleanup d])
  = filter is_move body.
Proof.
  simpl. rewrite filter_app. simpl. apply app_nil_r.
Qed.

(** X10.  Which file the compile stage puts in place, and when.  When the
    stage returns [True], it made exactly one move: of the file, in the
    temporary directory it entered, that has the name of the LaTeX file with
    the suffix [.pdf] (for a LaTeX file with a plain name: that directory
    followed by the name with its extension replaced), to the final PDF
    path.  When it returns [False], it attempted no move.  When it raises,
    either it attempted no move, or the move to the final path was attempted
    and is what raised.  ([shutil.move] is taken to fail with errors of the
    operating system only.) *)
Theorem compile_promotes_pdf_on_success_only (os : OS)
  (tex_file output_pdf : Path) (w : World) :
  move_errors_are_os_errors os ->
  let r := compile_tex_to_pdf os tex_file output_pdf w in
  let evs := events_since w (snd r) in
  (fst r = Returned true ->
   exists d renamed,
     In (TemporaryDirectory_enter d) evs
     /\ with_suffix (d // name tex_file) ".pdf" = Returned renamed
     /\ filter is_move evs = [Shutil_move (d // name renamed) output_pdf]
     /\ (has_slash (name tex_file) = false ->
         name tex_file <> "" -> name tex_file <> "." ->
         d // name renamed
         = mkPath (anchored d)
             (segments d ++ [replace_suffix (name tex_file) ".pdf"])))
  /\ (fst r = Returned false -> filter is_move evs = [])
  /\ (forall e, fst r = Raised e ->
        filter is_move evs = []
        \/ exists src f,
             In (Shutil_move src output_pdf) evs
             /\ fst (os_move os src output_pdf f) = Raised e).
Proof.
  intros Hmove r evs. subst evs r.
  rewrite compile_tex_to_pdf_steps. cbv zeta.
  destruct (os_mkdir os (parent output_pdf) (fs w)) as [[[]|e0] f1].
  2:{ rewrite (events_since_app w _
                 [Call_compile_tex_to_pdf tex_file output_pdf;
                  Mkdir (parent output_pdf)]) by reflexivity.
      cbn [fst]. split; [discriminate|]. split; [discriminate|].
      intros e _. now left. }
  unfold with_TemporaryDirectory. cbn [fs trace].
  destruct (os_mkdtemp os f1) as [d|e0].
  2:{ rewrite (events_since_app w _
                 [Call_compile_tex_to_pdf tex_file output_pdf;
                  Mkdir (parent output_pdf)]) by reflexivity.
      cbn [fst]. split; [discriminate|]. split; [discriminate|].
      intros e _. now left. }
  match goal with
  | |- context [compile_in_tmpdir os tex_file output_pdf d ?w1] =>
      destruct (compile_in_tmpdir_moves os tex_file output_pdf d w1)
        as (body & Htr & Htrue & Hfalse & Hraise);
      destruct (compile_in_tmpdir os tex_file output_pdf d w1) as [r w2]
  end.
  cbn [fst snd trace] in *.
  rewrite (events_since_app w _
             ([Call_compile_tex_to_pdf tex_file output_pdf;
               Mkdir (parent output_pdf)]
              ++ TemporaryDirectory_enter d :: body
              ++ [TemporaryDirectory_cleanup d]))
    by (rewrite Htr, <- !app_assoc; reflexivity).
  rewrite filter_is_move_bracket.
  split; [|split].
  - intros H. destruct (Htrue H) as (renamed & Hren & Hfilter).
    exists d, renamed. split; [simpl; auto|]. split; [exact Hren|].
    split; [exact Hfilter|].
    intros Hs He Hd. now apply (produced_pdf_path d renamed (name tex_file)).
  - intros H. now apply Hfalse.
  - intros e H. destruct (Hraise e H) as [Hnone|(src & f & Hin & Hm)];
      [now left|right].
    exists src, f. split; [|exact Hm].
    simpl. right. right. right. apply in_or_app. now left.
Qed.

Lemma demo_move_errors (rc_of : list string -> Z) :
  move_errors_are_os_errors (demo_os rc_of).
Proof.
  intros src dst f e. simpl. destruct (f src); simpl; [discriminate|].
  intros [= <-]. discriminate.
Qed.

Lemma compile_promotes_pdf_on_success_only_witness :
  filter is_move
    (events_since demo_world_tex
       (snd (compile_tex_to_pdf (demo_os all_succeed) (tex demo_paths)
               (pdf demo_paths) demo_world_tex)))
  = [Shutil_move (Path_of "/tmp/tmpq3x7/plan.pdf")
       (Path_of "/repo/PDF/notes/plan.pdf")]
  /\ filter is_move
       (events_since demo_world_tex
          (snd (compile_tex_to_pdf (demo_os (fails "latexmk"))
                  (tex demo_paths) (pdf demo_paths) demo_world_tex)))
     = [].
Proof.
  split.
  - destruct (proj1 (compile_promotes_pdf_on_success_only
                       (demo_os all_succeed) (tex demo_paths)
                       (pdf demo_paths) demo_world_tex
                       (demo_move_errors all_succeed)) eq_refl)
      as (d & renamed & Hd & Hren & Hfilter & Hplain).
    rewrite Hfilter.
    rewrite (Hplain eq_refl ltac:(discriminate) ltac:(discriminate)).
    destruct Hd as [Hd|[Hd|[Hd|Hd]]]; try discriminate Hd.
    + injection Hd as <-. reflexivity.
    + exfalso. simpl in Hd.
      repeat (destruct Hd as [Hd|Hd]; [discriminate Hd|]). exact Hd.
  - refine (proj1 (proj2 (compile_promotes_pdf_on_success_only
                            (demo_os (fails "latexmk"))
                            (tex demo_paths) (pdf demo_paths) demo_world_tex
                            (demo_move_errors (fails "latexmk")))) _).
    reflexivity.
Defined.

(** ** The modes of the pipeline *)

Lemma emits_copy_to_recent (os : OS) (source_file recent_dir : Path)
  (file_type : string) :
  emits (fun e => copy_step_event e = true)
        (copy_to_recent os source_file recent_dir file_type).
Proof.
  unfold copy_to_recent, mkdir_parents, shutil_copy. emits_stage.
Qed.

Lemma emits_single_stage_mode (os : OS) (source_file : Path)
  (paths : MirrorPaths) :
  emits (fun e => tex_stage_event e = true \/ copy_step_event e = true)
        (run_stages os source_file tex_only paths)
  /\ emits (fun e => pdf_direct_stage_event e = true
                     \/ copy_step_event e = true)
           (run_stages os source_file pdf_only paths).
Proof.
  split; unfold run_stages, copy_if_recent.
  - apply emits_bind.
    + eapply emits_weaken; [|apply emits_convert_md_to_tex]. now left.
    + intros ok. destruct (negb ok); [apply emits_ret|].
      apply emits_bind; [|intros; apply emits_ret].
      destruct (recent paths); [|apply emits_ret].
      eapply emits_weaken; [|apply emits_copy_to_recent]. now right.
  - apply emits_bind.
    + eapply emits_weaken; [|apply emits_convert_md_to_pdf_direct]. now left.
    + intros ok. destruct (negb ok); [apply emits_ret|].
      apply emits_bind; [|intros; apply emits_ret].
      destruct (recent paths); [|apply emits_ret].
      eapply emits_weaken; [|apply emits_copy_to_recent]. now right.
Qed.

Lemma emits_build (P : Event -> Prop) (os : OS) (source_file : Path)
  (mode : Mode) (repo_root : option Path) :
  (forall paths, emits P (run_stages os source_file mode paths)) ->
  emits P (build_markdown_outputs os source_file mode repo_root).
Proof.
  intros H. unfold build_markdown_outputs.
  apply emits_bind; [apply emits_lift_outcome|exact H].
Qed.

(** X11.  The single-stage modes run one converter only.  A [tex-only]
    build never calls the compile stage or the direct PDF converter, starts
    no [latexmk], makes no temporary directory and moves nothing; a
    [pdf-only] build never calls the LaTeX converter or the compile stage
    and starts no [latexmk] either.  This holds on every machine, with or
    without a repository root. *)
Theorem single_stage_modes_run_one_converter (os : OS) (source_file : Path)
  (repo_root : option Path) (w : World) :
  (exists evs,
     trace (snd (build_markdown_outputs os source_file tex_only repo_root w))
     = (trace w ++ evs)%list
     /\ Forall (fun e => is_call_compile e = false
                         /\ is_call_pdf_direct e = false
                         /\ runs_program "latexmk" e = false
                         /\ is_tmpdir_enter e = false
                         /\ is_move e = false) evs)
  /\ (exists evs,
        trace (snd (build_markdown_outputs os source_file pdf_only repo_root w))
        = (trace w ++ evs)%list
        /\ Forall (fun e => is_call_compile e = false
                            /\ is_call_tex e = false
                            /\ runs_program "latexmk" e = false
                            /\ is_tmpdir_enter e = false
                            /\ is_move e = false) evs).
Proof.
  split.
  - refine (emits_build _ os source_file tex_only repo_root _ w).
    intros paths. eapply emits_weaken;
      [|apply (proj1 (emits_single_stage_mode os source_file paths))].
    intros e [H|H]; destruct e; simpl in *; try discriminate;
      repeat split; try reflexivity.
    destruct argv as [|q argv]; [discriminate|].
    destruct cwd; [discriminate|].
    apply String.eqb_eq in H; subst q. reflexivity.
  - refine (emits_build _ os source_file pdf_only repo_root _ w).
    intros paths. eapply emits_weaken;
      [|apply (proj2 (emits_single_stage_mode os source_file paths))].
    intros e [H|H]; destruct e; simpl in *; try discriminate;
      repeat split; try reflexivity.
    destruct argv as [|q argv]; [discriminate|].
    destruct cwd; [discriminate|].
    apply String.eqb_eq in H; subst q. reflexivity.
Qed.

Lemma single_mode_succeeded (os : OS) (source_file : Path)
  (paths : MirrorPaths) (w : World) :
  (fst (run_stages os source_file pdf_only paths w) = Returned true ->
   fst (convert_md_to_pdf_direct os source_file (pdf paths) w) = Returned true)
  /\ (fst (run_stages os source_file tex_only paths w) = Returned true ->
      fst (convert_md_to_tex os source_file (tex paths) w) = Returned true).
Proof.
  split; intros H.
  - destruct (fst (convert_md_to_pdf_direct os source_file (pdf paths) w))
      as [[|]|e] eqn:E; [reflexivity| |];
      rewrite (proj1 (single_stage_fail_fast os source_file paths w)) in H
        by (rewrite E; discriminate);
      rewrite E in H; discriminate.
  - destruct (fst (convert_md_to_tex os source_file (tex paths) w))
      as [[|]|e] eqn:E; [reflexivity| |];
      rewrite (proj2 (single_stage_fail_fast os source_file paths w)) in H
        by (rewrite E; discriminate);
      rewrite E in H; discriminate.
Qed.

(** X12.  A build reports success only if every stage of its mode returned
    [True]: in mode [both] the LaTeX stage and then the compile stage run on
    the world the LaTeX stage left, in the other modes the single
    converter. *)
Theorem success_needs_every_stage (os : OS) (source_file : Path)
  (repo_root : option Path) (paths : MirrorPaths) (w : World) :
  get_mirror_paths (os_resolve os) source_file repo_root = Returned paths ->
  let tex_stage := convert_md_to_tex os source_file (tex paths) w in
  (fst (build_markdown_outputs os source_file both repo_root w) = Returned true ->
   fst tex_stage = Returned true
   /\ fst (compile_tex_to_pdf os (tex paths) (pdf paths) (snd tex_stage))
      = Returned true)
  /\ (fst (build_markdown_outputs os source_file tex_only repo_root w)
      = Returned true ->
      fst tex_stage = Returned true)
  /\ (fst (build_markdown_outputs os source_file pdf_only repo_root w)
      = Returned true ->
      fst (convert_md_to_pdf_direct os source_file (pdf paths) w)
      = Returned true).
Proof.
  intros Hpaths tex_stage.
  rewrite !(build_with_paths _ _ _ _ _ _ Hpaths).
  split; [|split].
  - intros H.
    assert (Ht : fst tex_stage = Returned true).
    { destruct (fst tex_stage) as [[|]|e] eqn:E; [reflexivity| |];
        rewrite run_both_tex_failed in H
          by (fold tex_stage; rewrite E; discriminate);
        fold tex_stage in H; rewrite E in H; discriminate. }
    split; [exact Ht|].
    destruct (fst (compile_tex_to_pdf os (tex paths) (pdf paths)
                     (snd tex_stage))) as [[|]|e] eqn:E; [reflexivity| |];
      rewrite (run_both_compile_failed os source_file paths w Ht) in H
        by (fold tex_stage; rewrite E; discriminate);
      fold tex_stage in H; rewrite E in H; discriminate.
  - apply (proj2 (single_mode_succeeded os source_file paths w)).
  - apply (proj1 (single_mode_succeeded os source_file paths w)).
Qed.

Lemma success_needs_every_stage_witness :
  fst (convert_md_to_tex (demo_os all_succeed) (Path_of "/repo/notes/plan.md")
         (tex demo_paths) demo_world) = Returned true.
Proof.
  refine (proj1 (proj1 (success_needs_every_stage (demo_os all_succeed)
                          (Path_of "/repo/notes/plan.md")
                          (Some (Path_of "/repo")) demo_paths demo_world
                          eq_refl) _)).
  reflexivity.
Defined.

(** ** Convenience copies of a successful run *)

Lemma filter_none {A} (f : A -> bool) (l : list A) :
  Forall (fun x => f x = false) l -> filter f l = [].
Proof.
  induction 1 as [|x l Hx _ IH]; simpl; [reflexivity|]. now rewrite Hx.
Qed.

Lemma copy_to_recent_calls (os : OS) (source_file recent_dir : Path)
  (file_type : string) (w : World) :
  exists rest,
    trace (snd (copy_to_recent os source_file recent_dir file_type w))
    = (trace w ++ Call_copy_to_recent source_file recent_dir file_type :: rest)%list
    /\ Forall (fun e => is_call_copy e = false) rest.
Proof.
  unfold copy_to_recent, mkdir_parents, shutil_copy, bind, log, read_fs,
    lift_fs; simpl.
  destruct (path_exists (fs w) source_file); simpl.
  - destruct (os_mkdir os recent_dir (fs w)) as [[[]|e] f1]; simpl.
    + destruct (os_copy os source_file _ f1) as [r f2]; simpl.
      eexists. split; [rewrite <- !app_assoc; reflexivity|].
      repeat constructor.
    + eexists. split; [rewrite <- !app_assoc; reflexivity|].
      repeat constructor.
  - exists []. split; [reflexivity|constructor].
Qed.

Lemma copy_calls_after_stage (os : OS) (w w1 w2 : World)
  (evs : list Event) (source_file recent_dir : Path) (file_type : string) :
  trace w1 = (trace w ++ evs)%list ->
  w2 = snd (copy_to_recent os source_file recent_dir file_type w1) ->
  filter is_call_copy (events_since w w2)
  = (filter is_call_copy evs
     ++ [Call_copy_to_recent source_file recent_dir file_type])%list.
Proof.
  intros Htr ->.
  destruct (copy_to_recent_calls os source_file recent_dir file_type w1)
    as (rest & Hc & Hrest).
  rewrite (events_since_app w _
             (evs ++ Call_copy_to_recent source_file recent_dir file_type
                     :: rest))
    by (rewrite Hc, Htr, <- app_assoc; reflexivity).
  rewrite filter_app. simpl. now rewrite (filter_none _ _ Hrest).
Qed.

(** X13.  In a repository, a build that reports success has called
    [copy_to_recent] for exactly the files of its mode, in this order: the
    LaTeX target and then the PDF target in mode [both], the PDF target in
    mode [pdf-only], the LaTeX target in mode [tex-only]; each call names
    the resolved convenience directory. *)
Theorem successful_run_copies (os : OS) (source_file : Path)
  (repo_root : option Path) (paths : MirrorPaths) (d : Path) (mode : Mode)
  (w : World) :
  get_mirror_paths (os_resolve os) source_file repo_root = Returned paths ->
  recent paths = Some d ->
  let run := build_markdown_outputs os source_file mode repo_root w in
  fst run = Returned true ->
  filter is_call_copy (events_since w (snd run))
  = match mode with
    | both => [Call_copy_to_recent (tex paths) d "tex";
               Call_copy_to_recent (pdf paths) d "pdf"]
    | pdf_only => [Call_copy_to_recent (pdf paths) d "pdf"]
    | tex_only => [Call_copy_to_recent (tex paths) d "tex"]
    end.
Proof.
  intros Hpaths Hrecent run Hok. subst run.
  rewrite (build_with_paths _ _ _ _ _ _ Hpaths) in *.
  unfold run_stages, copy_if_recent in *. rewrite Hrecent in *.
  destruct mode.
  - (* both *)
    destruct (emits_convert_md_to_tex os source_file (tex paths) w)
      as (evs1 & Ht1 & Ha1).
    unfold bind in Hok |- *.
    destruct (convert_md_to_tex os source_file (tex paths) w)
      as [[[|]|e] w1]; simpl in *; try discriminate.
    destruct (emits_compile_tex_to_pdf os (tex paths) (pdf paths) w1)
      as (evs2 & Ht2 & Ha2).
    unfold bind in Hok |- *.
    destruct (compile_tex_to_pdf os (tex paths) (pdf paths) w1)
      as [[[|]|e] w2]; simpl in *; try discriminate.
    destruct (copy_to_recent_calls os (tex paths) d "tex" w2)
      as (r3 & Ht3 & Ha3).
    destruct (copy_to_recent_calls os (pdf paths) d "pdf"
                (snd (copy_to_recent os (tex paths) d "tex" w2)))
      as (r4 & Ht4 & Ha4).
    destruct (copy_to_recent os (tex paths) d "tex" w2) as [[[]|e] w3];
      simpl in *; try discriminate.
    destruct (copy_to_recent os (pdf paths) d "pdf" w3) as [[[]|e] w4];
      simpl in *; try discriminate.
    rewrite (events_since_app w w4
               (evs1 ++ evs2
                ++ (Call_copy_to_recent (tex paths) d "tex" :: r3)
                ++ Call_copy_to_recent (pdf paths) d "pdf" :: r4))
      by (rewrite Ht4, Ht3, Ht2, Ht1, <- !app_assoc; reflexivity).
    rewrite !filter_app. simpl.
    rewrite (filter_none _ _ Ha3), (filter_none _ _ Ha4).
    rewrite (filter_none is_call_copy evs1)
      by (eapply Forall_impl; [apply tex_stage_no_copy|exact Ha1]).
    rewrite (filter_none is_call_copy evs2)
      by (eapply Forall_impl; [apply compile_stage_no_copy|exact Ha2]).
    reflexivity.
  - (* pdf-only *)
    destruct (emits_convert_md_to_pdf_direct os source_file (pdf paths) w)
      as (evs1 & Ht1 & Ha1).
    unfold bind in Hok |- *.
    destruct (convert_md_to_pdf_direct os source_file (pdf paths) w)
      as [[[|]|e] w1]; simpl in *; try discriminate.
    rewrite (copy_calls_after_stage os w w1 _ evs1 (pdf paths) d "pdf" Ht1)
      by (destruct (copy_to_recent os (pdf paths) d "pdf" w1) as [[[]|e] w2];
          reflexivity).
    rewrite (filter_none is_call_copy evs1)
      by (eapply Forall_impl; [apply pdf_direct_stage_no_copy|exact Ha1]).
    reflexivity.
  - (* tex-only *)
    destruct (emits_convert_md_to_tex os source_file (tex paths) w)
      as (evs1 & Ht1 & Ha1).
    unfold bind in Hok |- *.
    destruct (convert_md_to_tex os source_file (tex paths) w)
      as [[[|]|e] w1]; simpl in *; try discriminate.
    rewrite (copy_calls_after_stage os w w1 _ evs1 (tex paths) d "tex" Ht1)
      by (destruct (copy_to_recent os (tex paths) d "tex" w1) as [[[]|e] w2];
          reflexivity).
    rewrite (filter_none is_call_copy evs1)
      by (eapply Forall_impl; [apply tex_stage_no_copy|exact Ha1]).
    reflexivity.
Qed.

Lemma successful_run_copies_witness :
  filter is_call_copy
    (events_since demo_world
       (snd (build_markdown_outputs (demo_os all_succeed)
               (Path_of "/repo/notes/plan.md") both (Some (Path_of "/repo"))
               demo_world)))
  = [Call_copy_to_recent (Path_of "/repo/TEX/notes/plan.tex")
       (Path_of "/repo/recent") "tex";
     Call_copy_to_recent (Path_of "/repo/PDF/notes/plan.pdf")
       (Path_of "/repo/recent") "pdf"].
Proof.
  refine (successful_run_copies (demo_os all_succeed)
            (Path_of "/repo/notes/plan.md") (Some (Path_of "/repo"))
            demo_paths (Path_of "/repo/recent") both demo_world
            eq_refl eq_refl _).
  reflexivity.
Defined.

(** ** Dependency check *)

Ltac probe_step os :=
  match goal with
  | |- context [os_run os ?a ?b ?f] =>
      let E := fresh "Erun" in
      destruct (os_run os a b f) as [[?|?] ?] eqn:E; simpl
  | |- context [Z.eqb ?rc 0] =>
      let E := fresh "Erc" in
      destruct (Z.eqb rc 0) eqn:E;
      [apply Z.eqb_eq in E; subst rc|]; simpl
  end.

Lemma check_dependencies_spec (os : OS) (w : World) :
  let r := check_dependencies os w in
  let p1 := os_run os ["which"; "pandoc"] None (fs w) in
  let p2 := os_run os ["which"; "pandoc-mermaid"] None (snd p1) in
  let p3 := os_run os ["which"; "latexmk"] None (snd p2) in
  let p4 := os_run os ["which"; "mmdc"] None (snd p3) in
  (fst r = Returned (true, [])
   <-> fst p1 = Returned 0%Z /\ fst p2 = Returned 0%Z
       /\ fst p3 = Returned 0%Z /\ fst p4 = Returned 0%Z)
  /\ (forall all_found missing,
        fst r = Returned (all_found, missing) ->
        (all_found = true <-> missing = [])
        /\ trace (snd r) = (trace w ++ which_probes)%list
        /\ fs (snd r) = snd p4).
Proof.
  cbv zeta.
  unfold check_dependencies, subprocess_run, bind, log, lift_fs, ret, raise;
    simpl.
  repeat probe_step os.
  all: split; [split|intros all_found missing H].
  all: try (intros H; discriminate H).
  all: try (intros _; repeat split; reflexivity).
  all: try (intros (H1 & H2 & H3 & H4); congruence).
  all: try (intros (H1 & H2 & H3 & H4); exfalso;
            repeat match goal with
                   | H : Returned ?z = Returned 0%Z |- _ =>
                       injection H as H; try subst z
                   end;
            match goal with
            | E : (0 =? 0)%Z = false |- _ => discriminate E
            end).
  all: try discriminate H.
  all: injection H as <- <-;
       (split; [split; intros H'; (discriminate H' || reflexivity)|]);
       (split; [rewrite <- !app_assoc; reflexivity|reflexivity]).
Qed.

(** X14.  [check_dependencies] asks [which] for pandoc, pandoc-mermaid,
    latexmk and mmdc, in this order, each probe on the file system the
    previous one left.  It reports that all were found exactly when the four
    return codes are 0; whenever it returns, the flag is true exactly when
    the list of missing tools is empty, and the four probes are all it did. *)
Theorem check_dependencies_probes (os : OS) (w : World) :
  let r := check_dependencies os w in
  let p1 := os_run os ["which"; "pandoc"] None (fs w) in
  let p2 := os_run os ["which"; "pandoc-mermaid"] None (snd p1) in
  let p3 := os_run os ["which"; "latexmk"] None (snd p2) in
  let p4 := os_run os ["which"; "mmdc"] None (snd p3) in
  (fst r = Returned (true, [])
   <-> fst p1 = Returned 0%Z /\ fst p2 = Returned 0%Z
       /\ fst p3 = Returned 0%Z /\ fst p4 = Returned 0%Z)
  /\ (forall all_found missing,
        fst r = Returned (all_found, missing) ->
        (all_found = true <-> missing = [])
        /\ events_since w (snd r) = which_probes
        /\ fs (snd r) = snd p4).
Proof.
  intros r p1 p2 p3 p4.
  destruct (check_dependencies_spec os w) as [Hall Hret].
  split; [exact Hall|].
  intros all_found missing H.
  destruct (Hret all_found missing H) as (Hflag & Htr & Hfs).
  repeat split; try apply Hflag; try assumption.
  now apply events_since_app.
Qed.

Example check_dependencies_one_missing :
  fst (check_dependencies (demo_os (fun argv =>
         if String.eqb (last argv "") "latexmk" then 1%Z else 0%Z))
         demo_world)
  = Returned (false,
              ["latexmk (install via: sudo apt-get install texlive-full)"]).
Proof. reflexivity. Qed.

(** ** Command line: what [main] runs *)

Lemma events_since_self (w : World) : events_since w w = [].
Proof. unfold events_since. apply skipn_all. Qed.

Lemma determine_source_type_not_latex (p : Path) :
  determine_source_type p <> Returned latex.
Proof.
  unfold determine_source_type.
  destruct (String.eqb (suffix p) ".md"); [discriminate|].
  destruct (String.eqb (suffix p) ".tex"); discriminate.
Qed.

Lemma check_dependencies_found (os : OS) (w : World) (missing : list string) :
  fst (check_dependencies os w) = Returned (true, missing) -> missing = [].
Proof.
  intros H.
  destruct (proj2 (check_dependencies_spec os w) true missing H) as (Hf & _).
  now apply Hf.
Qed.

Lemma bind_read_fs {A B} (q : FS -> A) (k : A -> M B) (w : World) :
  bind (read_fs q) k w = k (q (fs w)) w.
Proof. reflexivity. Qed.

(** the ways [main] can go *)
Lemma bind_unfold {A B} (m : M A) (k : A -> M B) (w : World) :
  bind m k w
  = match m w with
    | (Returned a, w') => k a w'
    | (Raised e, w') => (Raised e, w')
    end.
Proof. reflexivity. Qed.

Ltac not_passing Hin Hdeps :=
  let input' := fresh "input'" in
  let Hi := fresh "Hi" in let Hd := fresh "Hd" in let Hf := fresh "Hf" in
  let Ht := fresh "Ht" in let Hr := fresh "Hr" in
  intros input' (_ & Hi & _ & Hd & Hf & Ht & Hr);
  rewrite Hin in Hi; injection Hi as <-;
  first [ rewrite Hdeps in Hd; discriminate Hd
        | congruence
        | match goal with
          | Hroot : arg_repo_root _ = Some _ |- _ => specialize (Hr _ Hroot)
          end;
          rewrite Hdeps in Hr; cbn [fst snd] in Hr; congruence ].

Lemma main_cases (os : OS) (args : Args) (w : World) :
  let deps := check_dependencies os w in
  (arg_check_deps args = true
   /\ main os args w
      = bind (check_dependencies os)
          (fun r => if fst r then ret 0%Z else ret 1%Z) w)
  \/ (arg_check_deps args = false
      /\ (arg_input args = None
          \/ exists input, arg_input args = Some input
               /\ path_is_file (fs w) (os_resolve os input) = false)
      /\ main os args w = (Returned 1%Z, w))
  \/ (arg_check_deps args = false
      /\ snd (main os args w) = snd deps
      /\ exit_code (fst (main os args w)) = 1%Z
      /\ forall input, ~ checks_pass os args w input)
  \/ (exists input,
        checks_pass os args w input
        /\ main os args w
           = bind (build_markdown_outputs os (os_resolve os input)
                     (selected_mode args)
                     (selected_root os args (fs (snd deps))
                        (os_resolve os input)))
               (fun success => if success : bool then ret 0%Z else ret 1%Z)
               (snd deps)).
Proof.
  intros deps. subst deps.
  remember (main os args w) as m eqn:Hm. unfold main in Hm.
  destruct (arg_check_deps args) eqn:Hcheck; [left; auto|right].
  destruct (arg_input args) as [input|] eqn:Hin; [|left; auto].
  rewrite bind_read_fs in Hm.
  destruct (path_exists (fs w) (os_resolve os input)) eqn:Hex;
    cbn [negb] in Hm.
  2:{ left. split; [reflexivity|]. split; [|exact Hm].
      right. exists input. split; [reflexivity|].
      unfold path_is_file. unfold path_exists in Hex.
      now destruct (fs w (os_resolve os input)). }
  rewrite bind_read_fs in Hm.
  destruct (path_is_file (fs w) (os_resolve os input)) eqn:Hfile;
    cbn [negb] in Hm.
  2:{ left. split; [reflexivity|]. split; [|exact Hm].
      right. exists input. auto. }
  right. rewrite bind_unfold in Hm.
  destruct (check_dependencies os w) as [[[all_found missing]|e] w1] eqn:Hdeps;
    cbn [fst snd] in Hm |- *;
    [|left; subst m; repeat split; try reflexivity; unfold checks_pass;
      not_passing Hin Hdeps].
  destruct all_found; cbn [negb] in Hm;
    [|left; subst m; repeat split; try reflexivity; unfold checks_pass;
      not_passing Hin Hdeps].
  assert (missing = []) as ->
    by (apply (check_dependencies_found os w); now rewrite Hdeps).
  destruct (arg_pdf_only args && arg_tex_only args)%bool eqn:Hflags;
    [left; subst m; repeat split; try reflexivity; unfold checks_pass;
     not_passing Hin Hdeps|].
  destruct (determine_source_type (os_resolve os input)) as [[|]|e] eqn:Htype;
    [| |left; subst m; repeat split; try reflexivity; unfold checks_pass;
        not_passing Hin Hdeps].
  2:{ exfalso. now apply (determine_source_type_not_latex _ Htype). }
  change (if arg_pdf_only args then pdf_only
          else if arg_tex_only args then tex_only else both)
    with (selected_mode args) in Hm.
  destruct (arg_repo_root args) as [rr|] eqn:Hroot.
  - rewrite bind_read_fs in Hm.
    destruct (path_is_dir (fs w1) (os_resolve os rr)) eqn:Hdir;
      cbn [negb] in Hm;
      [|left; subst m; repeat split; try reflexivity; unfold checks_pass;
        not_passing Hin Hdeps].
    right. exists input. split.
    + unfold checks_pass. rewrite Hdeps, Hroot, Hin, Hflags. cbn [fst snd].
      repeat split; try assumption. now intros rr' [= <-].
    + unfold selected_root. rewrite Hroot. exact Hm.
  - rewrite bind_read_fs in Hm.
    right. exists input. split.
    + unfold checks_pass. rewrite Hdeps, Hroot, Hin, Hflags. cbn [fst snd].
      repeat split; try assumption. discriminate.
    + unfold selected_root. rewrite Hroot. exact Hm.
Qed.

Lemma probe_is_expected (evs : list Event) (e : Event) :
  Forall (fun e => which_probe_event e = true) evs ->
  In e evs -> which_probe_event e = false -> False.
Proof.
  intros Hall Hin Hno. rewrite Forall_forall in Hall.
  rewrite (Hall _ Hin) in Hno. discriminate.
Qed.

(** X15.  Without [--check-deps], a command line with no input, or whose
    input does not exist or is not a regular file, makes [main] return 1 at
    once: nothing is started, not even the dependency probes, and the world
    is unchanged. *)
Theorem main_rejects_bad_input (os : OS) (args : Args) (w : World) :
  arg_check_deps args = false ->
  arg_input args = None
  \/ (exists input, arg_input args = Some input
        /\ path_is_file (fs w) (os_resolve os input) = false) ->
  main os args w = (Returned 1%Z, w).
Proof.
  intros Hcheck Hbad. unfold main. rewrite Hcheck.
  destruct Hbad as [->|(input & -> & Hfile)]; [reflexivity|].
  rewrite bind_read_fs.
  destruct (path_exists (fs w) (os_resolve os input)); cbn [negb];
    [|reflexivity].
  rewrite bind_read_fs, Hfile. reflexivity.
Qed.

Lemma main_rejects_bad_input_witness :
  main (demo_os all_succeed)
    {| arg_input := Some (Path_of "notes");
       arg_pdf_only := false; arg_tex_only := false;
       arg_repo_root := None; arg_check_deps := false |} demo_world
  = (Returned 1%Z, demo_world).
Proof.
  apply main_rejects_bad_input; [reflexivity|].
  right. exists (Path_of "notes"). split; reflexivity.
Defined.

(** X16.  [main] does something other than a [which] probe (a stage call,
    a directory creation, a converter or compiler process, a copy) only
    when every test has passed: [--check-deps] is not set, the input is an
    existing regular file, all four tools were found, the two mode flags are
    not both set, the resolved input has the suffix [.md], and a given
    [--repo-root] is a directory. *)
Theorem main_acts_only_after_checks (os : OS) (args : Args) (w : World)
  (e : Event) :
  In e (events_since w (snd (main os args w))) ->
  which_probe_event e = false ->
  exists input, checks_pass os args w input.
Proof.
  intros Hin Hno.
  destruct (main_cases os args w)
    as [[_ Hm]|[(_ & _ & Hm)|[(_ & Hw & _)|(input & Hpass & _)]]].
  - exfalso. rewrite Hm in Hin.
    assert (E : emits (fun e => which_probe_event e = true)
                  (bind (check_dependencies os)
                     (fun r => if fst r then ret 0%Z else ret 1%Z))).
    { apply emits_bind; [apply emits_check_dependencies|].
      intros r. destruct (fst r); apply emits_ret. }
    destruct (E w) as (evs & Htr & Hall).
    rewrite (events_since_app _ _ _ Htr) in Hin.
    exact (probe_is_expected evs e Hall Hin Hno).
  - exfalso. rewrite Hm in Hin. simpl in Hin.
    now rewrite events_since_self in Hin.
  - exfalso. rewrite Hw in Hin.
    destruct (emits_check_dependencies os w) as (evs & Htr & Hall).
    rewrite (events_since_app _ _ _ Htr) in Hin.
    exact (probe_is_expected evs e Hall Hin Hno).
  - now exists input.
Qed.

Lemma main_acts_only_after_checks_witness :
  exists input,
    checks_pass (demo_os all_succeed)
      {| arg_input := Some (Path_of "notes/plan.md");
         arg_pdf_only := false; arg_tex_only := true;
         arg_repo_root := None; arg_check_deps := false |}
      demo_world input.
Proof.
  apply (main_acts_only_after_checks (demo_os all_succeed) _ demo_world
           (Call_convert_md_to_tex (Path_of "/repo/notes/plan.md")
              (Path_of "/repo/TEX/notes/plan.tex"))).
  - vm_compute. auto 10.
  - reflexivity.
Defined.

(** X17.  The value [main] gives is 0 or 1 (an exception that leaves it
    ends the process with 1).  Without [--check-deps] it is 0 only when all
    tests passed and the build, run in the mode the flags select, with the
    given or located root, on the world the dependency check left, returned
    [True]; the world [main] leaves is the one that build left. *)
Theorem exit_0_means_build_succeeded (os : OS) (args : Args) (w : World) :
  (exit_code (fst (main os args w)) = 0%Z
   \/ exit_code (fst (main os args w)) = 1%Z)
  /\ (arg_check_deps args = false ->
      exit_code (fst (main os args w)) = 0%Z ->
      exists input,
        checks_pass os args w input
        /\ build_markdown_outputs os (os_resolve os input)
             (selected_mode args)
             (selected_root os args (fs (snd (check_dependencies os w)))
                (os_resolve os input))
             (snd (check_dependencies os w))
           = (Returned true, snd (main os args w))).
Proof.
  destruct (main_cases os args w)
    as [[Hc Hm]|[(_ & _ & Hm)|[(_ & _ & Hx & _)|(input & Hpass & Hm)]]].
  - split.
    + rewrite Hm, bind_unfold.
      destruct (check_dependencies os w) as [[[[|] missing]|e] w1]; simpl;
        first [left; reflexivity|right; reflexivity].
    + intros Hc'. rewrite Hc in Hc'. discriminate.
  - rewrite Hm. simpl. split; [now right|discriminate].
  - rewrite Hx. split; [now right|discriminate].
  - rewrite Hm, bind_unfold.
    destruct (build_markdown_outputs os (os_resolve os input)
                (selected_mode args)
                (selected_root os args (fs (snd (check_dependencies os w)))
                   (os_resolve os input))
                (snd (check_dependencies os w))) as [[[|]|e] w2] eqn:Eb;
      simpl;
      (split; [first [left; reflexivity|right; reflexivity]|]);
      intros _ H; try discriminate H.
    exists input. split; [assumption|exact Eb].
Qed.

Lemma exit_0_means_build_succeeded_witness :
  exists input,
    checks_pass (demo_os all_succeed) plain_args demo_world input
    /\ fst (build_markdown_outputs (demo_os all_succeed)
              (os_resolve (demo_os all_succeed) input) both
              (Some (Path_of "/repo")) demo_world)
       = Returned true.
Proof.
  destruct (proj2 (exit_0_means_build_succeeded (demo_os all_succeed)
                     plain_args demo_world) eq_refl eq_refl)
    as (input & Hpass & Hbuild).
  exists input. split; [exact Hpass|].
  destruct Hpass as (_ & Hin & _). injection Hin as <-.
  reflexivity.
Defined.

(** X18.  With [--check-deps], [main] looks at no other argument: whatever
    the input, the flags and the root are, it runs the four [which] probes
    and nothing else, and returns 0 exactly when all four tools were
    found. *)
Theorem check_deps_ignores_other_arguments (os : OS) (args : Args)
  (w : World) :
  arg_check_deps args = true ->
  (forall args', arg_check_deps args' = true ->
     main os args' w = main os args w)
  /\ Forall (fun e => which_probe_event e = true)
       (events_since w (snd (main os args w)))
  /\ (exit_code (fst (main os args w)) = 0%Z
      <-> fst (check_dependencies os w) = Returned (true, [])).
Proof.
  intros Hcheck.
  assert (Hm : forall a, arg_check_deps a = true ->
            main os a w
            = bind (check_dependencies os)
                (fun r => if fst r then ret 0%Z else ret 1%Z) w).
  { intros a Ha. unfold main. now rewrite Ha. }
  split; [|split].
  - intros args' Hcheck'. now rewrite (Hm _ Hcheck), (Hm _ Hcheck').
  - rewrite (Hm _ Hcheck).
    assert (E : emits (fun e => which_probe_event e = true)
                  (bind (check_dependencies os)
                     (fun r => if fst r then ret 0%Z else ret 1%Z))).
    { apply emits_bind; [apply emits_check_dependencies|].
      intros r. destruct (fst r); apply emits_ret. }
    destruct (E w) as (evs & Htr & Hall).
    now rewrite (events_since_app _ _ _ Htr).
  - rewrite (Hm _ Hcheck), bind_unfold.
    pose proof (check_dependencies_found os w) as Hfound.
    destruct (check_dependencies os w) as [[[[|] missing]|e] w1]; simpl in *.
    + rewrite (Hfound missing eq_refl). split; reflexivity.
    + split; discriminate.
    + split; discriminate.
Qed.

Lemma check_deps_ignores_other_arguments_witness :
  main (demo_os all_succeed) (both_flags true) demo_world
  = main (demo_os all_succeed)
      {| arg_input := None; arg_pdf_only := false; arg_tex_only := false;
         arg_repo_root := Some (Path_of "/nowhere");
         arg_check_deps := true |} demo_world.
Proof.
  refine (proj1 (check_deps_ignores_other_arguments (demo_os all_succeed)
                   {| arg_input := None; arg_pdf_only := false;
                      arg_tex_only := false;
                      arg_repo_root := Some (Path_of "/nowhere");
                      arg_check_deps := true |}
                   demo_world eq_refl) (both_flags true) eq_refl).
Defined.

(** X19.  When every test passes, [main] is the build of the resolved
    input: in the mode the flags select ([--pdf-only], else [--tex-only],
    else both), with the resolved [--repo-root] when one is given and
    otherwise the root located from the directory of the input, started on
    the world the dependency check left.  The value is 0 when the build
    returns [True] and 1 when it returns [False]; an exception of the build
    leaves [main]. *)
Theorem main_runs_selected_build (os : OS) (args : Args) (w : World)
  (input : Path) :
  checks_pass os args w input ->
  main os args w
  = bind (build_markdown_outputs os (os_resolve os input)
            (selected_mode args)
            (selected_root os args (fs (snd (check_dependencies os w)))
               (os_resolve os input)))
      (fun success => if success : bool then ret 0%Z else ret 1%Z)
      (snd (check_dependencies os w)).
Proof.
  intros Hpass.
  destruct (main_cases os args w)
    as [[Hc _]|[(_ & Hbad & _)|[(_ & _ & _ & Hno)|(input' & Hpass' & Hm)]]].
  - destruct Hpass as (Hc' & _). rewrite Hc in Hc'. discriminate.
  - destruct Hpass as (_ & Hin & Hfile & _).
    destruct Hbad as [Hnone|(input' & Hin' & Hfile')].
    + rewrite Hnone in Hin. discriminate.
    + rewrite Hin in Hin'. injection Hin' as <-.
      rewrite Hfile in Hfile'. discriminate.
  - now elim (Hno input).
  - destruct Hpass as (_ & Hin & _), Hpass' as (_ & Hin' & _).
    rewrite Hin in Hin'. injection Hin' as <-. exact Hm.
Qed.

Lemma main_runs_selected_build_witness :
  main (demo_os all_succeed) plain_args demo_world
  = bind (build_markdown_outputs (demo_os all_succeed)
            (Path_of "/repo/notes/plan.md") both (Some (Path_of "/repo")))
      (fun success => if success : bool then ret 0%Z else ret 1%Z)
      (snd (check_dependencies (demo_os all_succeed) demo_world)).
Proof.
  refine (main_runs_selected_build (demo_os all_succeed) plain_args demo_world
            (Path_of "notes/plan.md") _).
  unfold checks_pass. repeat split; try reflexivity.
  intros rr H. discriminate H.
Defined.

(** ** The two pandoc stages *)

(** X20.  Each pandoc stage first creates the directory of its output and
    only then starts pandoc, once, on the source and with [-o] the output;
    the LaTeX stage asks for a standalone LaTeX document.  A verdict, [True]
    or [False], is given only after that pandoc run (return code 0 or not);
    when the directory cannot be created the stage raises and pandoc is not
    started. *)
Theorem pandoc_stages_run_once (os : OS) (input_md output : Path) (w : World) :
  let tex_run := convert_md_to_tex os input_md output w in
  let pdf_run := convert_md_to_pdf_direct os input_md output w in
  let tex_pandoc :=
    Subprocess_run
      ["pandoc"; path_str input_md; "--from=markdown"; "--to=latex";
       "--standalone"; "--filter"; "pandoc-mermaid"; "-o"; path_str output]
      None in
  let pdf_pandoc :=
    Subprocess_run
      ["pandoc"; path_str input_md; "--from=markdown"; "--filter";
       "pandoc-mermaid"; "-o"; path_str output]
      None in
  match fst (os_mkdir os (parent output) (fs w)) with
  | Returned _ =>
      events_since w (snd tex_run)
      = [Call_convert_md_to_tex input_md output; Mkdir (parent output);
         tex_pandoc]
      /\ events_since w (snd pdf_run)
         = [Call_convert_md_to_pdf_direct input_md output;
            Mkdir (parent output); pdf_pandoc]
      /\ (forall rc,
            fst (os_run os
                   ["pandoc"; path_str input_md; "--from=markdown";
                    "--to=latex"; "--standalone"; "--filter";
                    "pandoc-mermaid"; "-o"; path_str output]
                   None (snd (os_mkdir os (parent output) (fs w))))
            = Returned rc ->
            fst tex_run = Returned (Z.eqb rc 0))
      /\ (forall rc,
            fst (os_run os
                   ["pandoc"; path_str input_md; "--from=markdown";
                    "--filter"; "pandoc-mermaid"; "-o"; path_str output]
                   None (snd (os_mkdir os (parent output) (fs w))))
            = Returned rc ->
            fst pdf_run = Returned (Z.eqb rc 0))
  | Raised e =>
      fst tex_run = Raised e /\ fst pdf_run = Raised e
      /\ events_since w (snd tex_run)
         = [Call_convert_md_to_tex input_md output; Mkdir (parent output)]
      /\ events_since w (snd pdf_run)
         = [Call_convert_md_to_pdf_direct input_md output;
            Mkdir (parent output)]
  end.
Proof.
  cbv zeta.
  unfold convert_md_to_tex, convert_md_to_pdf_direct, mkdir_parents,
    subprocess_run, try_except, bind, log, lift_fs, ret, raise; simpl.
  destruct (os_mkdir os (parent output) (fs w)) as [[[]|e] f1]; simpl.
  - destruct (os_run os
                ["pandoc"; path_str input_md; "--from=markdown"; "--to=latex";
                 "--standalone"; "--filter"; "pandoc-mermaid"; "-o";
                 path_str output] None f1) as [[rc1|e1] f2]; simpl;
      destruct (os_run os
                  ["pandoc"; path_str input_md; "--from=markdown"; "--filter";
                   "pandoc-mermaid"; "-o"; path_str output] None f1)
        as [[rc2|e2] f3]; simpl;
      repeat match goal with
             | |- context [Z.eqb ?rc 0] => destruct (Z.eqb rc 0) eqn:?; simpl
             | |- context [match ?e with CalledProcessError => _ | _ => _ end] =>
                 destruct e; simpl
             end;
      (split; [apply events_since_app; cbn [trace];
               rewrite <- !app_assoc; reflexivity|]);
      (split; [apply events_since_app; cbn [trace];
               rewrite <- !app_assoc; reflexivity|]);
      split; intros rc H; try discriminate H; injection H as <-;
      match goal with
      | E : Z.eqb _ 0 = _ |- _ => now rewrite E
      end.
  - repeat split; apply events_since_app; cbn [trace];
      rewrite <- !app_assoc; reflexivity.
Qed.
